(** * KubeOne: defaulting, certificates and machine deployments

    A shallow embedding of three packages of the KubeOne sources:

    - [v1beta1]: the defaulting functions of the cluster API
      ([SetDefaults_KubeOneCluster] and the functions it calls);
    - [certificate]: [CAKeyPair] and [NewSignedTLSCert];
    - [machinecontroller]: [createMachineDeployment] and [machineSpec].

    Go values are modelled as follows: [int] is [Z] (no arithmetic in these
    packages can leave the 64-bit range: the only sums are slice indices),
    [string] is [string], a slice is a [list], a slice or pointer that may
    be [nil] is an [option], a [map[string]T] is a [gmap string T], and a
    function returning [(T, error)] returns a [result]: a value, an error
    or a panic. *)

From Stdlib Require Import ZArith NArith String Ascii List Bool Lia.
From stdpp Require Import base option list strings gmap fin_maps.

Local Open Scope string_scope.
Local Open Scope Z_scope.

(** ** The Go [strings] functions the sources use *)

(** [strings.TrimPrefix s "v"]. *)
Definition strings_TrimPrefix_v (s : string) : string :=
  match s with
  | String "v"%char rest => rest
  | _ => s
  end.

(** [strings.Join elems sep]. *)
Fixpoint strings_Join (elems : list string) (sep : string) : string :=
  match elems with
  | [] => ""
  | [e] => e
  | e :: rest => e ++ sep ++ strings_Join rest sep
  end.

(** ** A model of [github.com/Masterminds/semver/v3]

    The library is a dependency of the repository.  [NewVersion] follows the
    library's anchored regular expression
    [v?([0-9]+)(\.[0-9]+)?(\.[0-9]+)?(-pre)?(\+meta)?]; [Check_gte_1_22] is
    [Check] of the constraint [">= 1.22"]. *)
Module semver.

Record Version := mkVersion {
  major : N;
  minor : N;
  patch : N;
  pre : string;
  metadata : string
}.

Definition is_digit (c : ascii) : bool :=
  let n := N_of_ascii c in (48 <=? n)%N && (n <=? 57)%N.

Definition is_allowed (c : ascii) : bool :=
  let n := N_of_ascii c in
  is_digit c || ((65 <=? n)%N && (n <=? 90)%N)
             || ((97 <=? n)%N && (n <=? 122)%N)
             || (n =? 45)%N.

(** The longest prefix of characters satisfying [p], and the rest. *)
Fixpoint span (p : ascii -> bool) (s : string) : string * string :=
  match s with
  | String c rest =>
      if p c then let '(a, b) := span p rest in (String c a, b)
      else ("", s)
  | EmptyString => ("", "")
  end.

Fixpoint digits_value (acc : N) (s : string) : N :=
  match s with
  | String c rest => digits_value (acc * 10 + (N_of_ascii c - 48))%N rest
  | EmptyString => acc
  end.

(** [strconv.ParseUint s 10 64] on a non-empty string of digits. *)
Definition ParseUint (s : string) : option N :=
  let v := digits_value 0%N s in
  if (v <? 2 ^ 64)%N then Some v else None.

(** An optional [\.[0-9]+] group: the number (0 when the group is absent)
    and the rest of the input. *)
Definition dot_number (s : string) : option (N * string) :=
  match s with
  | String "."%char rest =>
      match span is_digit rest with
      | (EmptyString, _) => Some (0%N, s)
      | (ds, rest') => option_map (fun n => (n, rest')) (ParseUint ds)
      end
  | _ => Some (0%N, s)
  end.

(** [[0-9A-Za-z\-]+(\.[0-9A-Za-z\-]+)*]: the matched text and what
    follows it. *)
Fixpoint identifiers (fuel : nat) (s : string) : option (string * string) :=
  match fuel with
  | O => None
  | S fuel =>
      match span is_allowed s with
      | (EmptyString, _) => None
      | (ident, String "."%char rest) =>
          match identifiers fuel rest with
          | Some (more, rest') => Some (ident ++ "." ++ more, rest')
          | None => None
          end
      | (ident, rest) => Some (ident, rest)
      end
  end.

Fixpoint split_dots (cur : string) (s : string) : list string :=
  match s with
  | String "."%char rest => cur :: split_dots "" rest
  | String c rest => split_dots (cur ++ String c "") rest
  | EmptyString => [cur]
  end.

Fixpoint all_chars (p : ascii -> bool) (s : string) : bool :=
  match s with
  | String c rest => p c && all_chars p rest
  | EmptyString => true
  end.

(** [validatePrerelease]: a numeric segment has no leading zero. *)
Definition validatePrerelease (p : string) : bool :=
  forallb (fun seg =>
    if all_chars is_digit seg then
      match seg with
      | String "0"%char (String _ _) => false
      | _ => true
      end
    else all_chars is_allowed seg) (split_dots "" p).

Definition NewVersion (v : string) : option Version :=
  let s := strings_TrimPrefix_v v in
  match span is_digit s with
  | (EmptyString, _) => None
  | (ds, r1) =>
      match ParseUint ds with
      | None => None
      | Some ma =>
          match dot_number r1 with
          | None => None
          | Some (mi, r2) =>
              match dot_number r2 with
              | None => None
              | Some (pa, r3) =>
                  let fuel := S (String.length r3) in
                  let pre_part :=
                    match r3 with
                    | String "-"%char r => identifiers fuel r
                    | _ => Some ("", r3)
                    end in
                  match pre_part with
                  | None => None
                  | Some (p, r4) =>
                      let meta_part :=
                        match r4 with
                        | String "+"%char r => identifiers fuel r
                        | _ => Some ("", r4)
                        end in
                      match meta_part with
                      | Some (m, EmptyString) =>
                          if validatePrerelease p
                          then Some (mkVersion ma mi pa p m)
                          else None
                      | _ => None
                      end
                  end
              end
          end
      end
  end.

(** [c.Check v] for [c], the constraint [">= 1.22"]: a pre-release never
    satisfies a constraint without one; otherwise the versions compare
    by major, minor and patch. *)
Definition Check_gte_1_22 (v : Version) : bool :=
  match pre v with
  | EmptyString =>
      (1 <? major v)%N
      || ((major v =? 1)%N && (22 <=? minor v)%N)
  | _ => false
  end.

End semver.

(** ** Package [v1beta1]: the API types the defaulting functions touch

    The struct declarations live in the package's [types.go]; each record
    below lists the fields that the defaulting code reads or writes. *)
Module v1beta1.

Definition DefaultPodSubnet : string := "10.244.0.0/16".
Definition DefaultServiceSubnet : string := "10.96.0.0/12".
Definition DefaultServiceDNS : string := "cluster.local".
Definition DefaultNodePortRange : string := "30000-32767".
Definition DefaultStaticNoProxy : string := "127.0.0.1/8,localhost".
Definition DefaultCanalMTU : Z := 1450.

(** [corev1.Taint] *)
Record Taint := mkTaint {
  Taint_Key : string;
  Taint_Value : string;
  Taint_Effect : string
}.

Definition TaintEffectNoSchedule : string := "NoSchedule".

Record HostConfig := mkHostConfig {
  ID : Z;
  PublicAddress : string;
  PrivateAddress : string;
  SSHPort : Z;
  SSHUsername : string;
  SSHPrivateKeyFile : string;
  SSHAgentSocket : string;
  BastionPort : Z;
  BastionUser : string;
  IsLeader : bool;
  Taints : option (list Taint)
}.

Record APIEndpoint := mkAPIEndpoint {
  Host : string;
  Port : Z
}.

Record ContainerRuntimeConfig := mkContainerRuntimeConfig {
  Docker : option unit;
  Containerd : option unit
}.

Record CanalSpec := mkCanalSpec { MTU : Z }.

Record CiliumSpec := mkCiliumSpec { KubeProxyReplacement : string }.

Record CNI := mkCNI {
  Canal : option CanalSpec;
  Cilium : option CiliumSpec
}.

Record ClusterNetworkConfig := mkClusterNetworkConfig {
  PodSubnet : string;
  ServiceSubnet : string;
  ServiceDomainName : string;
  NodePortRange : string;
  CNI_ : option CNI
}.

(** The provider pointers that [SetDefaults_ClusterNetwork] inspects. *)
Record CloudProviderSpec := mkCloudProviderSpec {
  AWS : option unit;
  GCE : option unit;
  Hetzner : option unit;
  Openstack : option unit
}.

Record ProxyConfig := mkProxyConfig {
  HTTP : string;
  HTTPS : string;
  NoProxy : string
}.

Record MachineControllerConfig := mkMachineControllerConfig {
  Deploy : bool
}.

Record SystemPackages_ := mkSystemPackages {
  ConfigureRepositories : bool
}.

Record RegistryConfiguration_ := mkRegistryConfiguration {
  OverwriteRegistry : string
}.

(** The four [ImageRepository] fields of [AssetConfiguration]. *)
Record AssetConfiguration_ := mkAssetConfiguration {
  Kubernetes_ImageRepository : string;
  CoreDNS_ImageRepository : string;
  Etcd_ImageRepository : string;
  MetricsServer_ImageRepository : string
}.

Record StaticAuditLogConfig := mkStaticAuditLogConfig {
  LogPath : string;
  LogMaxAge : Z;
  LogMaxBackup : Z;
  LogMaxSize : Z
}.

Record StaticAuditLog_ := mkStaticAuditLog {
  StaticAuditLog_Enable : bool;
  StaticAuditLog_Config : StaticAuditLogConfig
}.

Record OpenIDConnectConfig := mkOpenIDConnectConfig {
  ClientID : string;
  UsernameClaim : string;
  UsernamePrefix : string;
  GroupsClaim : string;
  GroupsPrefix : string;
  SigningAlgs : string
}.

Record OpenIDConnect_ := mkOpenIDConnect {
  OpenIDConnect_Enable : bool;
  OpenIDConnect_Config : OpenIDConnectConfig
}.

Record MetricsServer_ := mkMetricsServer { MetricsServer_Enable : bool }.

Record Features_ := mkFeatures {
  MetricsServer : option MetricsServer_;
  StaticAuditLog : option StaticAuditLog_;
  OpenIDConnect : option OpenIDConnect_
}.

Record Addons_ := mkAddons {
  Addons_Enable : bool;
  Addons_Path : string
}.

Record KubeOneCluster := mkKubeOneCluster {
  ControlPlane_Hosts : list HostConfig;
  StaticWorkers_Hosts : list HostConfig;
  APIEndpoint_ : APIEndpoint;
  Versions_Kubernetes : string;
  ContainerRuntime : ContainerRuntimeConfig;
  ClusterNetwork : ClusterNetworkConfig;
  CloudProvider : CloudProviderSpec;
  Proxy : ProxyConfig;
  MachineController : option MachineControllerConfig;
  SystemPackages : option SystemPackages_;
  RegistryConfiguration : option RegistryConfiguration_;
  AssetConfiguration : AssetConfiguration_;
  Features : Features_;
  Addons : option Addons_
}.

(** *** Field assignments *)

Definition set_ID (v : Z) (h : HostConfig) : HostConfig :=
  mkHostConfig v (PublicAddress h) (PrivateAddress h) (SSHPort h)
    (SSHUsername h) (SSHPrivateKeyFile h) (SSHAgentSocket h)
    (BastionPort h) (BastionUser h) (IsLeader h) (Taints h).

Definition set_PublicAddress (v : string) (h : HostConfig) : HostConfig :=
  mkHostConfig (ID h) v (PrivateAddress h) (SSHPort h)
    (SSHUsername h) (SSHPrivateKeyFile h) (SSHAgentSocket h)
    (BastionPort h) (BastionUser h) (IsLeader h) (Taints h).

Definition set_PrivateAddress (v : string) (h : HostConfig) : HostConfig :=
  mkHostConfig (ID h) (PublicAddress h) v (SSHPort h)
    (SSHUsername h) (SSHPrivateKeyFile h) (SSHAgentSocket h)
    (BastionPort h) (BastionUser h) (IsLeader h) (Taints h).

Definition set_SSHPort (v : Z) (h : HostConfig) : HostConfig :=
  mkHostConfig (ID h) (PublicAddress h) (PrivateAddress h) v
    (SSHUsername h) (SSHPrivateKeyFile h) (SSHAgentSocket h)
    (BastionPort h) (BastionUser h) (IsLeader h) (Taints h).

Definition set_SSHUsername (v : string) (h : HostConfig) : HostConfig :=
  mkHostConfig (ID h) (PublicAddress h) (PrivateAddress h) (SSHPort h)
    v (SSHPrivateKeyFile h) (SSHAgentSocket h)
    (BastionPort h) (BastionUser h) (IsLeader h) (Taints h).

Definition set_SSHAgentSocket (v : string) (h : HostConfig) : HostConfig :=
  mkHostConfig (ID h) (PublicAddress h) (PrivateAddress h) (SSHPort h)
    (SSHUsername h) (SSHPrivateKeyFile h) v
    (BastionPort h) (BastionUser h) (IsLeader h) (Taints h).

Definition set_BastionPort (v : Z) (h : HostConfig) : HostConfig :=
  mkHostConfig (ID h) (PublicAddress h) (PrivateAddress h) (SSHPort h)
    (SSHUsername h) (SSHPrivateKeyFile h) (SSHAgentSocket h)
    v (BastionUser h) (IsLeader h) (Taints h).

Definition set_BastionUser (v : string) (h : HostConfig) : HostConfig :=
  mkHostConfig (ID h) (PublicAddress h) (PrivateAddress h) (SSHPort h)
    (SSHUsername h) (SSHPrivateKeyFile h) (SSHAgentSocket h)
    (BastionPort h) v (IsLeader h) (Taints h).

Definition set_IsLeader (v : bool) (h : HostConfig) : HostConfig :=
  mkHostConfig (ID h) (PublicAddress h) (PrivateAddress h) (SSHPort h)
    (SSHUsername h) (SSHPrivateKeyFile h) (SSHAgentSocket h)
    (BastionPort h) (BastionUser h) v (Taints h).

Definition set_Taints (v : option (list Taint)) (h : HostConfig)
  : HostConfig :=
  mkHostConfig (ID h) (PublicAddress h) (PrivateAddress h) (SSHPort h)
    (SSHUsername h) (SSHPrivateKeyFile h) (SSHAgentSocket h)
    (BastionPort h) (BastionUser h) (IsLeader h) v.

Definition set_Hosts (cp sw : list HostConfig) (o : KubeOneCluster)
  : KubeOneCluster :=
  mkKubeOneCluster cp sw (APIEndpoint_ o) (Versions_Kubernetes o)
    (ContainerRuntime o) (ClusterNetwork o) (CloudProvider o) (Proxy o)
    (MachineController o) (SystemPackages o) (RegistryConfiguration o)
    (AssetConfiguration o) (Features o) (Addons o).

Definition set_APIEndpoint (v : APIEndpoint) (o : KubeOneCluster)
  : KubeOneCluster :=
  mkKubeOneCluster (ControlPlane_Hosts o) (StaticWorkers_Hosts o) v
    (Versions_Kubernetes o)
    (ContainerRuntime o) (ClusterNetwork o) (CloudProvider o) (Proxy o)
    (MachineController o) (SystemPackages o) (RegistryConfiguration o)
    (AssetConfiguration o) (Features o) (Addons o).

Definition set_Versions_Kubernetes (v : string) (o : KubeOneCluster)
  : KubeOneCluster :=
  mkKubeOneCluster (ControlPlane_Hosts o) (StaticWorkers_Hosts o)
    (APIEndpoint_ o) v
    (ContainerRuntime o) (ClusterNetwork o) (CloudProvider o) (Proxy o)
    (MachineController o) (SystemPackages o) (RegistryConfiguration o)
    (AssetConfiguration o) (Features o) (Addons o).

Definition set_ContainerRuntime (v : ContainerRuntimeConfig)
    (o : KubeOneCluster) : KubeOneCluster :=
  mkKubeOneCluster (ControlPlane_Hosts o) (StaticWorkers_Hosts o)
    (APIEndpoint_ o) (Versions_Kubernetes o)
    v (ClusterNetwork o) (CloudProvider o) (Proxy o)
    (MachineController o) (SystemPackages o) (RegistryConfiguration o)
    (AssetConfiguration o) (Features o) (Addons o).

Definition set_ClusterNetwork (v : ClusterNetworkConfig)
    (o : KubeOneCluster) : KubeOneCluster :=
  mkKubeOneCluster (ControlPlane_Hosts o) (StaticWorkers_Hosts o)
    (APIEndpoint_ o) (Versions_Kubernetes o)
    (ContainerRuntime o) v (CloudProvider o) (Proxy o)
    (MachineController o) (SystemPackages o) (RegistryConfiguration o)
    (AssetConfiguration o) (Features o) (Addons o).

Definition set_Proxy (v : ProxyConfig) (o : KubeOneCluster)
  : KubeOneCluster :=
  mkKubeOneCluster (ControlPlane_Hosts o) (StaticWorkers_Hosts o)
    (APIEndpoint_ o) (Versions_Kubernetes o)
    (ContainerRuntime o) (ClusterNetwork o) (CloudProvider o) v
    (MachineController o) (SystemPackages o) (RegistryConfiguration o)
    (AssetConfiguration o) (Features o) (Addons o).

Definition set_MachineController (v : option MachineControllerConfig)
    (o : KubeOneCluster) : KubeOneCluster :=
  mkKubeOneCluster (ControlPlane_Hosts o) (StaticWorkers_Hosts o)
    (APIEndpoint_ o) (Versions_Kubernetes o)
    (ContainerRuntime o) (ClusterNetwork o) (CloudProvider o) (Proxy o)
    v (SystemPackages o) (RegistryConfiguration o)
    (AssetConfiguration o) (Features o) (Addons o).

Definition set_SystemPackages (v : option SystemPackages_)
    (o : KubeOneCluster) : KubeOneCluster :=
  mkKubeOneCluster (ControlPlane_Hosts o) (StaticWorkers_Hosts o)
    (APIEndpoint_ o) (Versions_Kubernetes o)
    (ContainerRuntime o) (ClusterNetwork o) (CloudProvider o) (Proxy o)
    (MachineController o) v (RegistryConfiguration o)
    (AssetConfiguration o) (Features o) (Addons o).

Definition set_AssetConfiguration (v : AssetConfiguration_)
    (o : KubeOneCluster) : KubeOneCluster :=
  mkKubeOneCluster (ControlPlane_Hosts o) (StaticWorkers_Hosts o)
    (APIEndpoint_ o) (Versions_Kubernetes o)
    (ContainerRuntime o) (ClusterNetwork o) (CloudProvider o) (Proxy o)
    (MachineController o) (SystemPackages o) (RegistryConfiguration o)
    v (Features o) (Addons o).

Definition set_Features (v : Features_) (o : KubeOneCluster)
  : KubeOneCluster :=
  mkKubeOneCluster (ControlPlane_Hosts o) (StaticWorkers_Hosts o)
    (APIEndpoint_ o) (Versions_Kubernetes o)
    (ContainerRuntime o) (ClusterNetwork o) (CloudProvider o) (Proxy o)
    (MachineController o) (SystemPackages o) (RegistryConfiguration o)
    (AssetConfiguration o) v (Addons o).

Definition set_Addons (v : option Addons_) (o : KubeOneCluster)
  : KubeOneCluster :=
  mkKubeOneCluster (ControlPlane_Hosts o) (StaticWorkers_Hosts o)
    (APIEndpoint_ o) (Versions_Kubernetes o)
    (ContainerRuntime o) (ClusterNetwork o) (CloudProvider o) (Proxy o)
    (MachineController o) (SystemPackages o) (RegistryConfiguration o)
    (AssetConfiguration o) (Features o) v.

(** *** The defaulting functions *)

(** [len(s) == 0], which for a Go string is [s == ""]. *)
Definition is_empty (s : string) : bool :=
  match s with
  | EmptyString => true
  | _ => false
  end.

Definition defaults (input defaultValue : string) : string :=
  if negb (is_empty input) then input else defaultValue.

Definition defaulti (input defaultValue : Z) : Z :=
  if negb (input =? 0) then input else defaultValue.

Definition defaultHostConfig (obj : HostConfig) : HostConfig :=
  let obj :=
    if is_empty (PublicAddress obj) && negb (is_empty (PrivateAddress obj))
    then set_PublicAddress (PrivateAddress obj) obj else obj in
  let obj :=
    if is_empty (PrivateAddress obj) && negb (is_empty (PublicAddress obj))
    then set_PrivateAddress (PublicAddress obj) obj else obj in
  let obj :=
    if is_empty (SSHPrivateKeyFile obj)
    then set_SSHAgentSocket
           (defaults (SSHAgentSocket obj) "env:SSH_AUTH_SOCK") obj
    else obj in
  let obj := set_SSHUsername (defaults (SSHUsername obj) "root") obj in
  let obj := set_SSHPort (defaulti (SSHPort obj) 22) obj in
  let obj := set_BastionPort (defaulti (BastionPort obj) 22) obj in
  set_BastionUser (defaults (BastionUser obj) (SSHUsername obj)) obj.

Definition masterTaint : Taint :=
  mkTaint "node-role.kubernetes.io/master" "" TaintEffectNoSchedule.

(** The body of the loop over [obj.ControlPlane.Hosts] at index [idx]. *)
Definition controlPlaneHost (idx : nat) (h : HostConfig) : HostConfig :=
  let h := set_ID (Z.of_nat idx) h in
  let h := defaultHostConfig h in
  match Taints h with
  | None => set_Taints (Some [masterTaint]) h
  | Some _ => h
  end.

(** The loop over the control-plane hosts from index [idx] on; the state
    it threads is the local variable [setDefaultLeader]. *)
Fixpoint controlPlaneLoop (idx : nat) (setDefaultLeader : bool)
    (hosts : list HostConfig) : list HostConfig * bool :=
  match hosts with
  | [] => ([], setDefaultLeader)
  | h :: rest =>
      let setDefaultLeader :=
        if setDefaultLeader && IsLeader h then false else setDefaultLeader in
      let '(rest', final) :=
        controlPlaneLoop (S idx) setDefaultLeader rest in
      (controlPlaneHost idx h :: rest', final)
  end.

(** The body of the loop over [obj.StaticWorkers.Hosts]; [n] is
    [len(obj.ControlPlane.Hosts)]. *)
Definition staticWorkerHost (n idx : nat) (h : HostConfig) : HostConfig :=
  let h := set_ID (Z.of_nat idx + Z.of_nat n) h in
  let h := defaultHostConfig h in
  match Taints h with
  | None => set_Taints (Some []) h
  | Some _ => h
  end.

Fixpoint staticWorkersLoop (n idx : nat) (hosts : list HostConfig)
  : list HostConfig :=
  match hosts with
  | [] => []
  | h :: rest => staticWorkerHost n idx h :: staticWorkersLoop n (S idx) rest
  end.

Definition SetDefaults_Hosts (obj : KubeOneCluster) : KubeOneCluster :=
  match ControlPlane_Hosts obj with
  | [] => obj
  | _ :: _ =>
      let '(cp, setDefaultLeader) :=
        controlPlaneLoop 0 true (ControlPlane_Hosts obj) in
      let cp :=
        if setDefaultLeader then
          match cp with
          | h0 :: tl => set_IsLeader true h0 :: tl
          | [] => cp
          end
        else cp in
      let sw :=
        staticWorkersLoop (length cp) 0 (StaticWorkers_Hosts obj) in
      set_Hosts cp sw obj
  end.

Definition SetDefaults_APIEndpoints (obj : KubeOneCluster) : KubeOneCluster :=
  let ep := APIEndpoint_ obj in
  let host :=
    if is_empty (Host ep) then
      match ControlPlane_Hosts obj with
      | [] => None
      | h0 :: _ => Some (PublicAddress h0)
      end
    else Some (Host ep) in
  match host with
  | None => obj
  | Some h => set_APIEndpoint (mkAPIEndpoint h (defaulti (Port ep) 6443)) obj
  end.

Definition SetDefaults_Versions (obj : KubeOneCluster) : KubeOneCluster :=
  set_Versions_Kubernetes (strings_TrimPrefix_v (Versions_Kubernetes obj)) obj.

Definition SetDefaults_ContainerRuntime (obj : KubeOneCluster)
  : KubeOneCluster :=
  match Docker (ContainerRuntime obj), Containerd (ContainerRuntime obj) with
  | Some _, _ => obj
  | None, Some _ => obj
  | None, None =>
      match semver.NewVersion (Versions_Kubernetes obj) with
      | None => obj
      | Some actualVer =>
          if semver.Check_gte_1_22 actualVer
          then set_ContainerRuntime
                 (mkContainerRuntimeConfig (Docker (ContainerRuntime obj))
                    (Some tt)) obj
          else obj
      end
  end.

(** The [defaultCanal] value that [SetDefaults_ClusterNetwork] builds. *)
Definition defaultCanal (p : CloudProviderSpec) : CanalSpec :=
  let defaultCanal := mkCanalSpec DefaultCanalMTU in
  match AWS p, GCE p, Hetzner p, Openstack p with
  | Some _, _, _, _ => mkCanalSpec (defaulti (MTU defaultCanal) 8951)
  | None, Some _, _, _ => mkCanalSpec (defaulti (MTU defaultCanal) 1410)
  | None, None, Some _, _ => mkCanalSpec (defaulti (MTU defaultCanal) 1400)
  | None, None, None, Some _ => mkCanalSpec (defaulti (MTU defaultCanal) 1400)
  | None, None, None, None => defaultCanal
  end.

Definition SetDefaults_ClusterNetwork (obj : KubeOneCluster)
  : KubeOneCluster :=
  let cn := ClusterNetwork obj in
  let defaultCanal := defaultCanal (CloudProvider obj) in
  let cni :=
    match CNI_ cn with
    | None => mkCNI (Some defaultCanal) None
    | Some c => c
    end in
  let cni :=
    match Canal cni with
    | Some k =>
        if MTU k =? 0
        then mkCNI (Some (mkCanalSpec (MTU defaultCanal))) (Cilium cni)
        else cni
    | None => cni
    end in
  let cni :=
    match Cilium cni with
    | Some c =>
        if is_empty (KubeProxyReplacement c)
        then mkCNI (Canal cni) (Some (mkCiliumSpec "disabled"))
        else cni
    | None => cni
    end in
  set_ClusterNetwork
    (mkClusterNetworkConfig
       (defaults (PodSubnet cn) DefaultPodSubnet)
       (defaults (ServiceSubnet cn) DefaultServiceSubnet)
       (defaults (ServiceDomainName cn) DefaultServiceDNS)
       (defaults (NodePortRange cn) DefaultNodePortRange)
       (Some cni)) obj.

Definition SetDefaults_Proxy (obj : KubeOneCluster) : KubeOneCluster :=
  let px := Proxy obj in
  if is_empty (HTTP px) && is_empty (HTTPS px) then obj
  else
    let noproxy :=
      [ DefaultStaticNoProxy;
        ServiceDomainName (ClusterNetwork obj);
        PodSubnet (ClusterNetwork obj);
        ServiceSubnet (ClusterNetwork obj) ] in
    let noproxy :=
      if negb (is_empty (NoProxy px)) then (noproxy ++ [NoProxy px])%list
      else noproxy in
    set_Proxy (mkProxyConfig (HTTP px) (HTTPS px) (strings_Join noproxy ","))
      obj.

Definition SetDefaults_MachineController (obj : KubeOneCluster)
  : KubeOneCluster :=
  match MachineController obj with
  | None => set_MachineController (Some (mkMachineControllerConfig true)) obj
  | Some _ => obj
  end.

Definition SetDefaults_SystemPackages (obj : KubeOneCluster)
  : KubeOneCluster :=
  match SystemPackages obj with
  | None => set_SystemPackages (Some (mkSystemPackages true)) obj
  | Some _ => obj
  end.

Definition SetDefaults_AssetConfiguration (obj : KubeOneCluster)
  : KubeOneCluster :=
  match RegistryConfiguration obj with
  | None => obj
  | Some rc =>
      if is_empty (OverwriteRegistry rc) then obj
      else
        let ac := AssetConfiguration obj in
        set_AssetConfiguration
          (mkAssetConfiguration
             (defaults (Kubernetes_ImageRepository ac) (OverwriteRegistry rc))
             (defaults (CoreDNS_ImageRepository ac) (OverwriteRegistry rc))
             (defaults (Etcd_ImageRepository ac) (OverwriteRegistry rc))
             (defaults (MetricsServer_ImageRepository ac)
                (OverwriteRegistry rc))) obj
  end.

Definition defaultStaticAuditLogConfig (obj : StaticAuditLogConfig)
  : StaticAuditLogConfig :=
  mkStaticAuditLogConfig
    (defaults (LogPath obj) "/var/log/kubernetes/audit.log")
    (defaulti (LogMaxAge obj) 30)
    (defaulti (LogMaxBackup obj) 3)
    (defaulti (LogMaxSize obj) 100).

Definition defaultOpenIDConnect (config : OpenIDConnectConfig)
  : OpenIDConnectConfig :=
  mkOpenIDConnectConfig
    (defaults (ClientID config) "kubernetes")
    (defaults (UsernameClaim config) "sub")
    (defaults (UsernamePrefix config) "oidc:")
    (defaults (GroupsClaim config) "groups")
    (defaults (GroupsPrefix config) "oidc:")
    (defaults (SigningAlgs config) "RS256").

Definition SetDefaults_Features (obj : KubeOneCluster) : KubeOneCluster :=
  let f := Features obj in
  let ms :=
    match MetricsServer f with
    | None => Some (mkMetricsServer true)
    | Some m => Some m
    end in
  let sal :=
    match StaticAuditLog f with
    | Some a =>
        if StaticAuditLog_Enable a
        then Some (mkStaticAuditLog (StaticAuditLog_Enable a)
                     (defaultStaticAuditLogConfig (StaticAuditLog_Config a)))
        else Some a
    | None => None
    end in
  let oidc :=
    match OpenIDConnect f with
    | Some c =>
        if OpenIDConnect_Enable c
        then Some (mkOpenIDConnect (OpenIDConnect_Enable c)
                     (defaultOpenIDConnect (OpenIDConnect_Config c)))
        else Some c
    | None => None
    end in
  set_Features (mkFeatures ms sal oidc) obj.

Definition SetDefaults_Addons (obj : KubeOneCluster) : KubeOneCluster :=
  match Addons obj with
  | Some a =>
      if Addons_Enable a
      then set_Addons
             (Some (mkAddons (Addons_Enable a)
                      (defaults (Addons_Path a) "./addons"))) obj
      else obj
  | None => obj
  end.

Definition SetDefaults_KubeOneCluster (obj : KubeOneCluster)
  : KubeOneCluster :=
  let obj := SetDefaults_Hosts obj in
  let obj := SetDefaults_APIEndpoints obj in
  let obj := SetDefaults_Versions obj in
  let obj := SetDefaults_ContainerRuntime obj in
  let obj := SetDefaults_ClusterNetwork obj in
  let obj := SetDefaults_Proxy obj in
  let obj := SetDefaults_MachineController obj in
  let obj := SetDefaults_SystemPackages obj in
  let obj := SetDefaults_AssetConfiguration obj in
  let obj := SetDefaults_Features obj in
  SetDefaults_Addons obj.

End v1beta1.

(** ** Go errors, panics and fallible calls

    An [error] value is modelled by the call that built it. A call either
    returns a value, returns an error, or panics. *)

Inductive error :=
| errors_New (msg : string)
    (** [errors.New(msg)] *)
| fmt_Errorf_not_found (name : string)
    (** [fmt.Errorf("%q not found", name)] *)
| errors_Wrap (err : error) (msg : string)
    (** [errors.Wrap(err, msg)] *)
| library_error (msg : string)
    (** an error built inside a library call *).

Inductive panic :=
| nil_pointer_dereference.

Inductive result (A : Type) :=
| Ok (a : A)
| Err (e : error)
| Panic (p : panic).

Arguments Ok {A} a.
Arguments Err {A} e.
Arguments Panic {A} p.

#[global] Instance result_bind : MBind result :=
  fun A B (k : A -> result B) (r : result A) =>
    match r with
    | Ok a => k a
    | Err e => Err e
    | Panic p => Panic p
    end.

(** [v, err := call; if err != nil { return nil, errors.Wrap(err, msg) }] *)
Definition wrapped {A : Type} (r : result A) (msg : string) : result A :=
  match r with
  | Ok a => Ok a
  | Err e => Err (errors_Wrap e msg)
  | Panic p => Panic p
  end.

Abbreviation bytes := (list Byte.byte).

(** ** Package [certificate] *)
Module certificate.

(** [x509.ExtKeyUsage] *)
Inductive ExtKeyUsage :=
| ExtKeyUsageAny
| ExtKeyUsageServerAuth
| ExtKeyUsageClientAuth.

(** What [possibleKey.(type)] can be after [keyutil.ParsePrivateKeyPEM]:
    the parser returns RSA and ECDSA keys. *)
Inductive KeyAlgorithm :=
| RSA
| ECDSA.

Record PrivateKey := mkPrivateKey {
  Algorithm : KeyAlgorithm;
  KeyMaterial : N
}.

(** The parts of an [x509.Certificate] that the package sets or that tell
    who issued it. *)
Record Certificate := mkCertificate {
  Subject_CommonName : string;
  DNSNames : list string;
  ExtKeyUsage_ : list ExtKeyUsage;
  Issuer_CommonName : string;
  PublicKey : N;
  SignedWith : N
}.

(** [certutil.Config] with its [AltNames] *)
Record Config := mkConfig {
  CommonName : string;
  Organization : list string;
  AltNames_DNSNames : list string;
  AltNames_IPs : list string;
  Usages : list ExtKeyUsage
}.

Section Package.

(** The two path constants of the package and the three key names of
    [templates/resources], declared outside the sources at hand. *)
Variable KubernetesCACertPath KubernetesCAKeyPath : string.
Variable TLSCertName TLSKeyName KubernetesCACertName : string.

(** The PEM parsers of [k8s.io/client-go/util]. *)
Variable ParseCertsPEM : bytes -> result (list Certificate).
Variable ParsePrivateKeyPEM : bytes -> result PrivateKey.

(** The package's own helpers, declared outside the sources at hand:
    [newPrivateKey()] draws a fresh key, so a call is modelled by its
    outcome. *)
Variable newPrivateKey : result PrivateKey.
Variable newSignedCert :
  Config -> PrivateKey -> Certificate -> PrivateKey -> result Certificate.
Variable encodeCertPEM : Certificate -> bytes.
Variable encodePrivateKeyPEM : PrivateKey -> bytes.

(** [strings.ToLower] of the Go library, which lowers letters of every
    alphabet. *)
Variable strings_ToLower : string -> string.

(** [config.KubernetesPKI] is the argument: a [map[string][]byte]. *)
Definition CAKeyPair (KubernetesPKI : gmap string bytes)
  : result (PrivateKey * Certificate) :=
  match KubernetesPKI !! KubernetesCACertPath with
  | None => Err (fmt_Errorf_not_found KubernetesCACertPath)
  | Some caCert =>
      match KubernetesPKI !! KubernetesCAKeyPath with
      | None => Err (fmt_Errorf_not_found KubernetesCAKeyPath)
      | Some caKey =>
          certs ← ParseCertsPEM caCert;
          match certs with
          | [] =>
              Err (errors_New
                     "ca.crt does not contain at least one valid certificate")
          | cert0 :: _ =>
              possibleKey ← ParsePrivateKeyPEM caKey;
              match Algorithm possibleKey with
              | RSA => Ok (possibleKey, cert0)
              | _ =>
                  Err (errors_New "private key is not a RSA private key")
              end
          end
      end
  end.

Definition serviceCommonName (name namespace : string) : string :=
  strings_Join [name; namespace; "svc"] ".".

Definition serviceFQDNCommonName (name namespace domain : string) : string :=
  strings_Join [serviceCommonName name namespace; domain; ""] ".".

(** The [certCfg] that [NewSignedTLSCert] hands to [newSignedCert]. *)
Definition certCfg (name namespace domain : string) : Config :=
  let altdnsNames :=
    [ serviceFQDNCommonName name namespace domain;
      serviceCommonName name namespace ] in
  mkConfig (serviceCommonName name namespace) [] altdnsNames []
    [ExtKeyUsageServerAuth].

Definition NewSignedTLSCert (name namespace domain : string)
    (caKey : PrivateKey) (caCert : Certificate)
  : result (gmap string string) :=
  newKPKey ← wrapped newPrivateKey "failed to generate private key";
  newKPCert ← wrapped (newSignedCert (certCfg name namespace domain)
                          newKPKey caCert caKey)
                 "failed to generate certificate";
  Ok (<[KubernetesCACertName :=
          string_of_list_byte (encodeCertPEM caCert)]>
      (<[TLSKeyName :=
           string_of_list_byte (encodePrivateKeyPEM newKPKey)]>
       (<[TLSCertName :=
            string_of_list_byte (encodeCertPEM newKPCert)]> ∅))).

(** [GetCertificateSANs]: the loop appends to [certSANS]. *)
Definition GetCertificateSANs (host : string) (alternativeNames : list string)
  : list string :=
  fold_left
    (fun certSANS name => (certSANS ++ [strings_ToLower name])%list)
    alternativeNames [strings_ToLower host].

End Package.

(** Modelled from the spec: [newSignedCert], which is declared in a file of
    the package outside the sources at hand.  It builds the certificate
    from the configuration (subject common name, alternative DNS names,
    extended key usage) for the new key's public half and signs it with the
    CA key under the CA certificate's name. *)
Definition newSignedCert_model (cfg : Config) (key : PrivateKey)
    (caCert : Certificate) (caKey : PrivateKey) : result Certificate :=
  Ok (mkCertificate (CommonName cfg) (AltNames_DNSNames cfg) (Usages cfg)
        (Subject_CommonName caCert) (KeyMaterial key) (KeyMaterial caKey)).

End certificate.

(** ** Package [machinecontroller] *)
Module machinecontroller.

(** [intstr.IntOrString] *)
Inductive IntOrString :=
| IntVal (i : Z)
| StrVal (s : string).

(** [int32(x)] for an [int] [x]: the low 32 bits, read as signed. *)
Definition int32 (x : Z) : Z :=
  (x + 2 ^ 31) mod 2 ^ 32 - 2 ^ 31.

Definition intstr_FromInt (val : Z) : IntOrString := IntVal (int32 val).

(** [labels.Merge labels1 labels2]: the entries of [labels2] win. *)
Definition labels_Merge (labels1 labels2 : gmap string string)
  : gmap string string := labels2 ∪ labels1.

Definition NamespaceSystem : string := "kube-system".

Definition RollingUpdateMachineDeploymentStrategyType : string :=
  "RollingUpdate".

Section Package.

(** Types declared outside the sources at hand: the fields of [AWSSpec]
    other than [Tags], the decoded form [map[string]interface{}] of a JSON
    object, node taints, the static network block of a worker pool, and
    the cluster behind the dynamic client. *)
Context {AWSSpecFields JSONObject Taint NetworkConfig Remote : Type}.

Record AWSSpec := mkAWSSpec {
  Tags : option (gmap string string);
  OtherFields : AWSSpecFields
}.

(** [kubeoneapi.ProviderSpec]: the fields this package reads or writes. *)
Record ProviderSpec := mkProviderSpec {
  CloudProviderSpec_ : option bytes;
  Annotations : gmap string string;
  MachineAnnotations : gmap string string;
  Labels : gmap string string;
  Taints : list Taint;
  Network : option NetworkConfig
}.

Record DynamicWorkerConfig := mkDynamicWorkerConfig {
  Name : string;
  Replicas : option Z;
  Config : ProviderSpec
}.

(** [kubeoneapi.CloudProviderSpec]: the pointer this package tests, and the
    value its method [CloudProviderName()] returns. *)
Record CloudProviderSpec := mkCloudProviderSpec {
  AWS : option unit;
  CloudProviderName : string
}.

Record KubeOneCluster := mkKubeOneCluster {
  Cluster_Name : string;
  CloudProvider : CloudProviderSpec;
  Versions_Kubernetes : string;
  DynamicWorkers : list DynamicWorkerConfig
}.

Record MachineRollingUpdateDeployment := mkMachineRollingUpdateDeployment {
  MaxSurge : IntOrString;
  MaxUnavailable : IntOrString
}.

Record MachineDeploymentStrategy := mkMachineDeploymentStrategy {
  Strategy_Type : string;
  RollingUpdate : MachineRollingUpdateDeployment
}.

Record ObjectMeta := mkObjectMeta {
  Meta_Annotations : gmap string string;
  Meta_Labels : gmap string string;
  Meta_Namespace : string;
  Meta_Name : string
}.

Record MachineSpec := mkMachineSpec {
  MachineSpec_ObjectMeta : ObjectMeta;
  Versions_Kubelet : string;
  ProviderSpec_Value_Raw : bytes;
  MachineSpec_Taints : list Taint
}.

Record MachineTemplateSpec := mkMachineTemplateSpec {
  Template_ObjectMeta : ObjectMeta;
  Template_Spec : MachineSpec
}.

Record MachineDeploymentSpec := mkMachineDeploymentSpec {
  Paused : bool;
  Spec_Replicas : Z;
  Selector_MatchLabels : gmap string string;
  Strategy : MachineDeploymentStrategy;
  MinReadySeconds : Z;
  Template : MachineTemplateSpec
}.

(** [TypeMeta], a pair of [APIVersion] and [Kind], is left at its zero
    value by [createMachineDeployment]. *)
Record MachineDeployment := mkMachineDeployment {
  TypeMeta : option (string * string);
  MachineDeployment_ObjectMeta : ObjectMeta;
  Spec : MachineDeploymentSpec
}.

(** The calls into [encoding/json], one per Go type they are used at, and
    the call into [clientutil]. *)
Variable json_Unmarshal_AWSSpec : bytes -> result AWSSpec.
Variable json_Marshal_AWSSpec : AWSSpec -> result bytes.
Variable json_Unmarshal_object : bytes -> result JSONObject.
Variable json_Marshal_object : JSONObject -> result bytes.
Variable json_Marshal_providerSpec : ProviderSpec -> string -> result bytes.
Variable CreateOrUpdate : Remote -> MachineDeployment -> result Remote.

(** [templates.KubernetesToYAML] and
    [clusterv1alpha1.SchemeGroupVersion.String()]. *)
Variable KubernetesToYAML : list MachineDeployment -> result string.
Variable SchemeGroupVersion_String : string.

(** [fmt.Sprintf("kubernetes.io/cluster/%s", cluster.Name)] *)
Definition tagName (cluster : KubeOneCluster) : string :=
  "kubernetes.io/cluster/" ++ Cluster_Name cluster.

Definition tagValue : string := "shared".

(** The [awsSpec] that [machineSpec] marshals again: [Tags] made non-nil,
    then [awsSpec.Tags[tagName] = tagValue]. *)
Definition taggedAWSSpec (cluster : KubeOneCluster) (awsSpec : AWSSpec)
  : AWSSpec :=
  let tags :=
    match Tags awsSpec with
    | None => ∅
    | Some tags => tags
    end in
  mkAWSSpec (Some (<[tagName cluster := tagValue]> tags))
    (OtherFields awsSpec).

Definition machineSpec (cluster : KubeOneCluster)
    (workerset : DynamicWorkerConfig) (provider : CloudProviderSpec)
  : result JSONObject :=
  match CloudProviderSpec_ (Config workerset) with
  | None => Err (errors_New "could't find cloudProviderSpec")
  | Some specRaw =>
      specRaw ←
        match AWS provider with
        | Some _ =>
            awsSpec ← wrapped (json_Unmarshal_AWSSpec specRaw)
                        "could not parse AWS Spec for worker machines";
            wrapped (json_Marshal_AWSSpec (taggedAWSSpec cluster awsSpec))
              "could not marshal AWSSpec"
        | None => Ok specRaw
        end;
      wrapped (json_Unmarshal_object specRaw)
        "unable to parse the workerset spec"
  end.

Definition set_CloudProviderSpec (v : option bytes) (c : ProviderSpec)
  : ProviderSpec :=
  mkProviderSpec v (Annotations c) (MachineAnnotations c) (Labels c)
    (Taints c) (Network c).

Definition createMachineDeployment (cluster : KubeOneCluster)
    (workerset : DynamicWorkerConfig) : result MachineDeployment :=
  cloudProviderSpec ←
    wrapped (machineSpec cluster workerset (CloudProvider cluster))
      "failed to generate machineSpec";
  cloudProviderSpecJSON ←
    wrapped (json_Marshal_object cloudProviderSpec)
      "failed to marshal cloudProviderSpec to JSON";
  let config :=
    set_CloudProviderSpec (Some cloudProviderSpecJSON) (Config workerset) in
  encoded ←
    wrapped (json_Marshal_providerSpec config
               (CloudProviderName (CloudProvider cluster)))
      "failed to JSON marshal providerSpec";
  replicas ←
    match Replicas workerset with
    | None => Panic nil_pointer_dereference
    | Some r => Ok (int32 r)
    end;
  let maxSurge := intstr_FromInt 1 in
  let maxUnavailable := intstr_FromInt 0 in
  let minReadySeconds := int32 0 in
  let workersetNameLabels : gmap string string :=
    {[ "workerset" := Name workerset ]} in
  let '(maxSurge, maxUnavailable) :=
    match Network config with
    | Some _ => (intstr_FromInt 0, intstr_FromInt 1)
    | None => (maxSurge, maxUnavailable)
    end in
  Ok (mkMachineDeployment None
        (mkObjectMeta (Annotations config) ∅ NamespaceSystem (Name workerset))
        (mkMachineDeploymentSpec false replicas workersetNameLabels
           (mkMachineDeploymentStrategy
              RollingUpdateMachineDeploymentStrategyType
              (mkMachineRollingUpdateDeployment maxSurge maxUnavailable))
           minReadySeconds
           (mkMachineTemplateSpec
              (mkObjectMeta ∅
                 (labels_Merge (Labels config) workersetNameLabels)
                 NamespaceSystem "")
              (mkMachineSpec
                 (mkObjectMeta (MachineAnnotations config)
                    (labels_Merge (Labels config) workersetNameLabels)
                    "" "")
                 (Versions_Kubernetes cluster)
                 encoded
                 (Taints config))))).

(** The loop of [CreateMachineDeployments] over [s.Cluster.DynamicWorkers];
    [remote] is the cluster as the dynamic client has left it so far. *)
Fixpoint applyMachineDeployments (cluster : KubeOneCluster)
    (workersets : list DynamicWorkerConfig) (remote : Remote)
  : result Remote :=
  match workersets with
  | [] => Ok remote
  | workerset :: rest =>
      machinedeployment ←
        wrapped (createMachineDeployment cluster workerset)
          "failed to generate MachineDeployment";
      remote ←
        wrapped (CreateOrUpdate remote machinedeployment)
          "failed to ensure MachineDeployment";
      applyMachineDeployments cluster rest remote
  end.

(** [s.DynamicClient] is [nil] or a client for [remote]. *)
Definition CreateMachineDeployments (cluster : KubeOneCluster)
    (DynamicClient : option Remote) : result Remote :=
  match DynamicClient with
  | None => Err (errors_New "kubernetes dynamic client in not initialized")
  | Some remote =>
      applyMachineDeployments cluster (DynamicWorkers cluster) remote
  end.

Definition set_TypeMeta (v : option (string * string))
    (md : MachineDeployment) : MachineDeployment :=
  mkMachineDeployment v (MachineDeployment_ObjectMeta md) (Spec md).

(** The loop of [GenerateMachineDeploymentsManifest]; [objs] is the slice
    built so far. *)
Fixpoint manifestObjects (cluster : KubeOneCluster)
    (workersets : list DynamicWorkerConfig) (objs : list MachineDeployment)
  : result (list MachineDeployment) :=
  match workersets with
  | [] => Ok objs
  | workerset :: rest =>
      machinedeployment ←
        wrapped (createMachineDeployment cluster workerset)
          "failed to generate MachineDeployment";
      let machinedeployment :=
        set_TypeMeta (Some (SchemeGroupVersion_String, "MachineDeployment"))
          machinedeployment in
      manifestObjects cluster rest (objs ++ [machinedeployment])%list
  end.

Definition GenerateMachineDeploymentsManifest (cluster : KubeOneCluster)
  : result string :=
  match DynamicWorkers cluster with
  | [] => Ok ""
  | _ :: _ =>
      objs ← manifestObjects cluster (DynamicWorkers cluster) [];
      KubernetesToYAML objs
  end.

End Package.

End machinecontroller.

(** ** Vocabulary of the properties of [v1beta1] *)
Module defaulting.
Import v1beta1.

(** The number of hosts that carry the leader flag. *)
Definition leaders (hosts : list HostConfig) : nat :=
  length (List.filter IsLeader hosts).

(** The Canal MTU of a cluster, when it has a Canal CNI. *)
Definition canalMTU (obj : KubeOneCluster) : option Z :=
  match CNI_ (ClusterNetwork obj) with
  | Some c => option_map MTU (Canal c)
  | None => None
  end.

(** The user left the CNI MTU unset: no CNI block at all, or a Canal block
    whose MTU is zero. *)
Definition mtu_unset (obj : KubeOneCluster) : Prop :=
  CNI_ (ClusterNetwork obj) = None \/ canalMTU obj = Some 0.

Definition no_provider (p : CloudProviderSpec) : Prop :=
  AWS p = None /\ GCE p = None /\ Hetzner p = None /\ Openstack p = None.

(** What [SetDefaults_KubeOneCluster] leaves in each field, as a function
    of the fields it is computed from. *)
Definition promote (hosts : list HostConfig) : list HostConfig :=
  match hosts with
  | h0 :: tl => set_IsLeader true h0 :: tl
  | [] => hosts
  end.

Definition hosts_after (cp sw : list HostConfig)
  : list HostConfig * list HostConfig :=
  match cp with
  | [] => (cp, sw)
  | _ :: _ =>
      let cp1 := imap controlPlaneHost cp in
      (if existsb IsLeader cp then cp1 else promote cp1,
       imap (staticWorkerHost (length cp)) sw)
  end.

(** The zero values of the Go structs. *)
Definition zeroHost : HostConfig :=
  mkHostConfig 0 "" "" 0 "" "" "" 0 "" false None.

Definition zeroCluster : KubeOneCluster :=
  mkKubeOneCluster [] [] (mkAPIEndpoint "" 0) ""
    (mkContainerRuntimeConfig None None)
    (mkClusterNetworkConfig "" "" "" "" None)
    (mkCloudProviderSpec None None None None) (mkProxyConfig "" "" "")
    None None None (mkAssetConfiguration "" "" "" "")
    (mkFeatures None None None) None.

Definition set_CloudProvider (v : CloudProviderSpec) (o : KubeOneCluster)
  : KubeOneCluster :=
  mkKubeOneCluster (ControlPlane_Hosts o) (StaticWorkers_Hosts o)
    (APIEndpoint_ o) (Versions_Kubernetes o)
    (ContainerRuntime o) (ClusterNetwork o) v (Proxy o)
    (MachineController o) (SystemPackages o) (RegistryConfiguration o)
    (AssetConfiguration o) (Features o) (Addons o).

Definition set_RegistryConfiguration (v : option RegistryConfiguration_)
    (o : KubeOneCluster) : KubeOneCluster :=
  mkKubeOneCluster (ControlPlane_Hosts o) (StaticWorkers_Hosts o)
    (APIEndpoint_ o) (Versions_Kubernetes o)
    (ContainerRuntime o) (ClusterNetwork o) (CloudProvider o) (Proxy o)
    (MachineController o) (SystemPackages o) v
    (AssetConfiguration o) (Features o) (Addons o).

(** Each of the remaining fields is read off the defaulting function that
    owns it, run on a cluster that holds just the fields the function
    reads. *)
Definition endpoint_after (cp : list HostConfig) (ep : APIEndpoint)
  : APIEndpoint :=
  APIEndpoint_
    (SetDefaults_APIEndpoints (set_APIEndpoint ep (set_Hosts cp [] zeroCluster))).

Definition runtime_after (version : string) (cr : ContainerRuntimeConfig)
  : ContainerRuntimeConfig :=
  ContainerRuntime
    (SetDefaults_ContainerRuntime
       (set_ContainerRuntime cr (set_Versions_Kubernetes version zeroCluster))).

Definition network_after (p : CloudProviderSpec) (cn : ClusterNetworkConfig)
  : ClusterNetworkConfig :=
  ClusterNetwork
    (SetDefaults_ClusterNetwork
       (set_ClusterNetwork cn (set_CloudProvider p zeroCluster))).

Definition proxy_after (cn : ClusterNetworkConfig) (px : ProxyConfig)
  : ProxyConfig :=
  Proxy (SetDefaults_Proxy (set_Proxy px (set_ClusterNetwork cn zeroCluster))).

Definition machineController_after (mc : option MachineControllerConfig)
  : option MachineControllerConfig :=
  MachineController
    (SetDefaults_MachineController (set_MachineController mc zeroCluster)).

Definition systemPackages_after (sp : option SystemPackages_)
  : option SystemPackages_ :=
  SystemPackages
    (SetDefaults_SystemPackages (set_SystemPackages sp zeroCluster)).

Definition assets_after (rc : option RegistryConfiguration_)
    (ac : AssetConfiguration_) : AssetConfiguration_ :=
  AssetConfiguration
    (SetDefaults_AssetConfiguration
       (set_AssetConfiguration ac (set_RegistryConfiguration rc zeroCluster))).

Definition features_after (f : Features_) : Features_ :=
  Features (SetDefaults_Features (set_Features f zeroCluster)).

Definition addons_after (a : option Addons_) : option Addons_ :=
  Addons (SetDefaults_Addons (set_Addons a zeroCluster)).

(** The fields of a normalised cluster, from the fields of the input. *)
Definition normal_form (obj : KubeOneCluster) : KubeOneCluster :=
  let hosts := hosts_after (ControlPlane_Hosts obj) (StaticWorkers_Hosts obj) in
  let version := strings_TrimPrefix_v (Versions_Kubernetes obj) in
  let network := network_after (CloudProvider obj) (ClusterNetwork obj) in
  mkKubeOneCluster (fst hosts) (snd hosts)
    (endpoint_after (fst hosts) (APIEndpoint_ obj))
    version
    (runtime_after version (ContainerRuntime obj))
    network
    (CloudProvider obj)
    (proxy_after network (Proxy obj))
    (machineController_after (MachineController obj))
    (systemPackages_after (SystemPackages obj))
    (RegistryConfiguration obj)
    (assets_after (RegistryConfiguration obj) (AssetConfiguration obj))
    (features_after (Features obj))
    (addons_after (Addons obj)).

(** A Kubernetes version string with at most one leading [v]. *)
Definition at_most_one_v (version : string) : bool :=
  match version with
  | String "v"%char (String "v"%char _) => false
  | _ => true
  end.

(** Sample clusters: one control-plane host behind an HTTP proxy; a
    version with two leading [v]; two control-plane hosts that both carry
    the leader flag; static workers without any control-plane host; a
    cluster on AWS. *)
Definition host (address : string) : HostConfig :=
  set_PublicAddress address zeroHost.

Definition proxiedCluster : KubeOneCluster :=
  set_Proxy (mkProxyConfig "http://proxy.example:3128" "" "")
    (set_Versions_Kubernetes "1.23.0"
       (set_Hosts [host "10.0.0.1"] [] zeroCluster)).

Definition doubleVCluster : KubeOneCluster :=
  set_Versions_Kubernetes "vv1.23.0"
    (set_Hosts [host "10.0.0.1"] [] zeroCluster).

Definition twoLeadersCluster : KubeOneCluster :=
  set_Hosts [set_IsLeader true (host "10.0.0.1");
             set_IsLeader true (host "10.0.0.2")] [] zeroCluster.

Definition workersOnlyCluster : KubeOneCluster :=
  set_Hosts [] [host "10.0.0.8"; host "10.0.0.9"] zeroCluster.

Definition awsCluster : KubeOneCluster :=
  set_CloudProvider (mkCloudProviderSpec (Some tt) None None None)
    (set_Versions_Kubernetes "v1.23.0"
       (set_Hosts [host "10.0.0.1"; host "10.0.0.2"] [host "10.0.0.8"]
          zeroCluster)).

(** *** Case analyses used in the proofs *)

Ltac case_defaulti z :=
  let E := fresh "E" in
  unfold defaulti; destruct (z =? 0) eqn:E; cbn [negb]; rewrite ?E; cbn.

(** Every test that [defaultHostConfig] makes is decided once the strings
    are known to be empty or not and the ports to be zero or not. *)
Ltac host_cases h :=
  let id := fresh "id" in
  let pub := fresh "pub" in
  let priv := fresh "priv" in
  let port := fresh "port" in
  let user := fresh "user" in
  let keyfile := fresh "keyfile" in
  let sock := fresh "sock" in
  let bport := fresh "bport" in
  let buser := fresh "buser" in
  let leader := fresh "leader" in
  let taints := fresh "taints" in
  destruct h as
    [id pub priv port user keyfile sock bport buser leader taints];
  destruct pub, priv, keyfile, sock, user, buser, taints, port, bport;
  lazy.

End defaulting.

(** ** Sample values for [certificate]

    Stand-ins for what the package takes from elsewhere, enough to run
    every branch: the PEM parsers recognise a few fixed inputs, and the PEM
    encoder prints the names of a certificate. *)
Module certificate_samples.
Import certificate.

Definition caCertPath : string := "/etc/kubernetes/pki/ca.crt".
Definition caKeyPath : string := "/etc/kubernetes/pki/ca.key".

Definition caCert : Certificate :=
  mkCertificate "kubernetes" [] [] "kubernetes" 11 11.

Definition caKey : PrivateKey := mkPrivateKey RSA 11.

Definition ecKey : PrivateKey := mkPrivateKey ECDSA 12.

Definition leafKey : PrivateKey := mkPrivateKey RSA 42.

Definition parseCerts (pem : bytes) : result (list Certificate) :=
  let text := string_of_list_byte pem in
  if String.eqb text "" then Ok []
  else if String.eqb text "one certificate" then Ok [caCert]
  else Err (library_error "data does not contain any valid certificates").

Definition parseKey (pem : bytes) : result PrivateKey :=
  let text := string_of_list_byte pem in
  if String.eqb text "rsa key" then Ok caKey
  else if String.eqb text "ec key" then Ok ecKey
  else Err (library_error "data does not contain a valid private key").

Definition pki (entries : list (string * string)) : gmap string bytes :=
  list_to_map (map (fun e => (fst e, list_byte_of_string (snd e))) entries).

Definition printCert (c : Certificate) : bytes :=
  list_byte_of_string
    ("CN=" ++ Subject_CommonName c ++ " DNS=" ++ strings_Join (DNSNames c) " ").

Definition printKey (k : PrivateKey) : bytes :=
  list_byte_of_string (match Algorithm k with RSA => "RSA" | ECDSA => "EC" end).

(** [NewSignedTLSCert] with the stand-ins and the modelled signer. *)
Definition issue (name namespace domain : string) : result (gmap string string) :=
  NewSignedTLSCert "cert.pem" "key.pem" "ca.pem" (Ok leafKey)
    newSignedCert_model printCert printKey name namespace domain caKey caCert.

End certificate_samples.

(** ** Sample values for [machinecontroller]

    A stand-in for [encoding/json], enough to run the package: a payload is
    the text [key=value,key=value,...] of its tags, and the fields of
    [AWSSpec] other than [Tags] are left out. *)
Module machinecontroller_samples.
Import machinecontroller.

(** The text before the first [sep] and, when there is a [sep], the text
    after it. *)
Fixpoint cut (sep : ascii) (s : string) : string * option string :=
  match s with
  | EmptyString => ("", None)
  | String c rest =>
      if Ascii.eqb c sep then ("", Some rest)
      else let '(a, b) := cut sep rest in (String c a, b)
  end.

Fixpoint pieces (fuel : nat) (sep : ascii) (s : string) : list string :=
  match fuel with
  | O => [s]
  | S fuel =>
      match cut sep s with
      | (a, None) => [a]
      | (a, Some rest) => a :: pieces fuel sep rest
      end
  end.

Definition parseTag (piece : string) : option (string * string) :=
  match cut "="%char piece with
  | (key, Some value) => Some (key, value)
  | (_, None) => None
  end.

Definition parseTags (text : string) : option (gmap string string) :=
  match text with
  | EmptyString => Some ∅
  | _ =>
      list_to_map <$> mapM parseTag (pieces (String.length text) ","%char text)
  end.

Definition printTags (tags : gmap string string) : string :=
  strings_Join
    (map (fun kv : string * string => fst kv ++ "=" ++ snd kv)
       (map_to_list tags)) ",".

Definition unmarshalAWSSpec (raw : bytes) : result (@AWSSpec unit) :=
  match parseTags (string_of_list_byte raw) with
  | Some tags => Ok (mkAWSSpec (Some tags) tt)
  | None => Err (library_error "invalid character in payload")
  end.

Definition marshalAWSSpec (spec : @AWSSpec unit) : result bytes :=
  Ok (list_byte_of_string (printTags (default ∅ (Tags spec)))).

Definition unmarshalObject (raw : bytes) : result (gmap string string) :=
  match parseTags (string_of_list_byte raw) with
  | Some tags => Ok tags
  | None => Err (library_error "invalid character in payload")
  end.

Definition marshalObject (o : gmap string string) : result bytes :=
  Ok (list_byte_of_string (printTags o)).

Definition marshalProviderSpec (config : @ProviderSpec string unit)
    (cloudProvider : string) : result bytes :=
  Ok (list_byte_of_string
        (cloudProvider ++ ":" ++
         string_of_list_byte (default [] (CloudProviderSpec_ config)))).

Definition createOrUpdate (remote : list (@MachineDeployment string))
    (md : @MachineDeployment string)
  : result (list (@MachineDeployment string)) :=
  Ok (remote ++ [md])%list.

Definition generate :=
  createMachineDeployment unmarshalAWSSpec marshalAWSSpec unmarshalObject
    marshalObject marshalProviderSpec.

Definition payloadOf :=
  machineSpec (Taint:=string) (NetworkConfig:=unit)
    unmarshalAWSSpec marshalAWSSpec unmarshalObject.

Definition aws : CloudProviderSpec := mkCloudProviderSpec (Some tt) "aws".

Definition pool (payload : string) (replicas : option Z)
    (network : option unit) : @DynamicWorkerConfig string unit :=
  mkDynamicWorkerConfig "pool1" replicas
    (mkProviderSpec (Some (list_byte_of_string payload)) ∅ ∅ ∅ [] network).

Definition prod (pools : list (@DynamicWorkerConfig string unit))
  : @KubeOneCluster string unit :=
  mkKubeOneCluster "prod" aws "1.23.0" pools.

End machinecontroller_samples.

(** ** Vocabulary of the properties of [machinecontroller] *)
Module machinecontroller_vocabulary.
Import machinecontroller.

Section Package.

Context {AWSSpecFields JSONObject Taint NetworkConfig : Type}.
Variable json_Unmarshal_AWSSpec : bytes -> result (@AWSSpec AWSSpecFields).
Variable json_Marshal_AWSSpec : @AWSSpec AWSSpecFields -> result bytes.
Variable json_Unmarshal_object : bytes -> result JSONObject.
Variable json_Marshal_object : JSONObject -> result bytes.
Variable json_Marshal_providerSpec :
  @ProviderSpec Taint NetworkConfig -> string -> result bytes.

(** The steps of [createMachineDeployment] before the replica count is
    read all succeed: the payload, its JSON text [raw], and the JSON text
    [encoded] of the provider specification. *)
Definition prepared (cluster : KubeOneCluster) (workerset : DynamicWorkerConfig)
    (encoded : bytes) : Prop :=
  exists spec raw,
    machineSpec json_Unmarshal_AWSSpec json_Marshal_AWSSpec
      json_Unmarshal_object cluster workerset (CloudProvider cluster) =
      Ok spec /\
    json_Marshal_object spec = Ok raw /\
    json_Marshal_providerSpec
      (set_CloudProviderSpec (Some raw) (Config workerset))
      (CloudProviderName (CloudProvider cluster)) = Ok encoded.

(** The update policy that goes with a pool. *)
Definition policy (workerset : @DynamicWorkerConfig Taint NetworkConfig)
  : MachineRollingUpdateDeployment :=
  match Network (Config workerset) with
  | Some _ => mkMachineRollingUpdateDeployment (IntVal 0) (IntVal 1)
  | None => mkMachineRollingUpdateDeployment (IntVal 1) (IntVal 0)
  end.

End Package.

End machinecontroller_vocabulary.

(** ** Vocabulary of further properties of [v1beta1] *)
Module host_vocabulary.
Import v1beta1.

(** A host after [defaultHostConfig] and the taint default, ID and default
    taints given. *)
Definition host_after (id : Z) (defaultTaints : list Taint) (h : HostConfig)
  : HostConfig :=
  mkHostConfig id
    (if is_empty (PublicAddress h) then PrivateAddress h else PublicAddress h)
    (if is_empty (PrivateAddress h) then PublicAddress h else PrivateAddress h)
    (defaulti (SSHPort h) 22)
    (defaults (SSHUsername h) "root")
    (SSHPrivateKeyFile h)
    (if is_empty (SSHPrivateKeyFile h)
     then defaults (SSHAgentSocket h) "env:SSH_AUTH_SOCK"
     else SSHAgentSocket h)
    (defaulti (BastionPort h) 22)
    (defaults (BastionUser h) (defaults (SSHUsername h) "root"))
    (IsLeader h)
    (Some (default defaultTaints (Taints h))).

(** Nothing that a connection to the host needs is missing. *)
Definition complete (h : HostConfig) : Prop :=
  SSHPort h <> 0 /\ SSHUsername h <> "" /\
  BastionPort h <> 0 /\ BastionUser h <> "" /\
  (SSHPrivateKeyFile h <> "" \/ SSHAgentSocket h <> "") /\
  Taints h <> None /\
  (PublicAddress h = "" <-> PrivateAddress h = "").

(** Whatever the user set on [h] is still there on [h']. *)
Definition keeps_user_values (h h' : HostConfig) : Prop :=
  (PublicAddress h <> "" -> PublicAddress h' = PublicAddress h) /\
  (PrivateAddress h <> "" -> PrivateAddress h' = PrivateAddress h) /\
  (SSHPort h <> 0 -> SSHPort h' = SSHPort h) /\
  (SSHUsername h <> "" -> SSHUsername h' = SSHUsername h) /\
  SSHPrivateKeyFile h' = SSHPrivateKeyFile h /\
  (SSHAgentSocket h <> "" -> SSHAgentSocket h' = SSHAgentSocket h) /\
  (BastionPort h <> 0 -> BastionPort h' = BastionPort h) /\
  (BastionUser h <> "" -> BastionUser h' = BastionUser h) /\
  (IsLeader h = true -> IsLeader h' = true) /\
  (forall taints, Taints h = Some taints -> Taints h' = Some taints).

(** What [h'] has where the user left [h] open. *)
Definition fills_gaps (h h' : HostConfig) : Prop :=
  (PublicAddress h = "" -> PublicAddress h' = PrivateAddress h) /\
  (PrivateAddress h = "" -> PrivateAddress h' = PublicAddress h) /\
  (SSHPort h = 0 -> SSHPort h' = 22) /\
  (SSHUsername h = "" -> SSHUsername h' = "root") /\
  (SSHPrivateKeyFile h = "" -> SSHAgentSocket h = "" ->
   SSHAgentSocket h' = "env:SSH_AUTH_SOCK") /\
  (SSHPrivateKeyFile h <> "" -> SSHAgentSocket h' = SSHAgentSocket h) /\
  (BastionPort h = 0 -> BastionPort h' = 22) /\
  (BastionUser h = "" -> BastionUser h' = SSHUsername h').

End host_vocabulary.

Module field_vocabulary.

(** [new] is [old] where [old] was set, and the default [d] where it was
    not: for strings and for numbers. *)
Definition defaulted_to (d old new : string) : Prop :=
  (old <> "" -> new = old) /\ (old = "" -> new = d).

Definition defaulted_to_i (d old new : Z) : Prop :=
  (old <> 0 -> new = old) /\ (old = 0 -> new = d).

End field_vocabulary.

(** Further sample clusters: an API endpoint without a host in front of
    hosts that have private addresses only; a registry override; features
    switched off by the user. *)
Module more_samples.
Import v1beta1 defaulting.

Definition privateHost (address : string) : HostConfig :=
  set_PrivateAddress address zeroHost.

Definition privateCluster : KubeOneCluster :=
  set_Hosts [privateHost "192.168.0.1"; privateHost "192.168.0.2"]
    [privateHost "192.168.0.9"] zeroCluster.

Definition mirroredCluster : KubeOneCluster :=
  set_AssetConfiguration
    (mkAssetConfiguration "" "registry.example/coredns" "" "")
    (set_RegistryConfiguration
       (Some (mkRegistryConfiguration "mirror.example")) zeroCluster).

Definition optedOutCluster : KubeOneCluster :=
  set_Features (mkFeatures (Some (mkMetricsServer false)) None None)
    (set_SystemPackages (Some (mkSystemPackages false))
       (set_MachineController (Some (mkMachineControllerConfig false))
          zeroCluster)).

Definition ciliumCluster : KubeOneCluster :=
  set_ClusterNetwork
    (mkClusterNetworkConfig "" "" "" ""
       (Some (mkCNI None (Some (mkCiliumSpec "")))))
    zeroCluster.

Definition auditedCluster : KubeOneCluster :=
  set_Addons (Some (mkAddons true ""))
    (set_Features
       (mkFeatures None
          (Some (mkStaticAuditLog true
                   (mkStaticAuditLogConfig "" 0 7 0)))
          (Some (mkOpenIDConnect false
                   (mkOpenIDConnectConfig "" "" "" "" "" ""))))
       zeroCluster).

End more_samples.

(** Further stand-ins for [machinecontroller]: a printer in the place of
    [templates.KubernetesToYAML] that lists kind, API version and name of
    each object, and a cluster that is not on AWS. *)
Module machinecontroller_more_samples.
Import machinecontroller machinecontroller_samples.

Definition groupVersion : string := "cluster.k8s.io/v1alpha1".

Definition printObject (md : @MachineDeployment string) : string :=
  match TypeMeta md with
  | Some (apiVersion, kind) =>
      kind ++ " " ++ apiVersion ++ " " ++
      Meta_Name (MachineDeployment_ObjectMeta md)
  | None => "? " ++ Meta_Name (MachineDeployment_ObjectMeta md)
  end.

Definition toYAML (objs : list (@MachineDeployment string)) : result string :=
  Ok (strings_Join (map printObject objs) "; ").

Definition manifest :=
  GenerateMachineDeploymentsManifest unmarshalAWSSpec marshalAWSSpec
    unmarshalObject marshalObject marshalProviderSpec toYAML groupVersion.

Definition applyAll :=
  applyMachineDeployments unmarshalAWSSpec marshalAWSSpec unmarshalObject
    marshalObject marshalProviderSpec createOrUpdate.

Definition hetzner : CloudProviderSpec := mkCloudProviderSpec None "hetzner".

Definition onHetzner (pools : list (@DynamicWorkerConfig string unit))
  : @KubeOneCluster string unit :=
  mkKubeOneCluster "prod" hetzner "1.23.0" pools.

Definition namedPool (name payload : string) (replicas : option Z)
  : @DynamicWorkerConfig string unit :=
  mkDynamicWorkerConfig name replicas
    (mkProviderSpec (Some (list_byte_of_string payload)) ∅ ∅
       {["workerset" := "mine"; "tier" := "batch"]} [] None).

Definition noPayloadPool : @DynamicWorkerConfig string unit :=
  mkDynamicWorkerConfig "pool0" None (mkProviderSpec None ∅ ∅ ∅ [] None).

End machinecontroller_more_samples.

(** * Properties of the defaulting functions *)
Module defaulting_facts.
Import v1beta1 defaulting.

(** ** The host loops *)

Lemma controlPlaneLoop_spec hosts : forall idx b,
  controlPlaneLoop idx b hosts =
  (imap (fun i => controlPlaneHost (idx + i)) hosts,
   b && negb (existsb IsLeader hosts)).
Proof.
  induction hosts as [|h rest IH]; intros idx b; simpl.
  - by rewrite andb_true_r.
  - rewrite IH. f_equal.
    + rewrite Nat.add_0_r. f_equal. apply imap_ext. intros i x _. simpl.
      f_equal. lia.
    + destruct b, (IsLeader h); reflexivity.
Qed.

Lemma staticWorkersLoop_spec n hosts : forall idx,
  staticWorkersLoop n idx hosts =
  imap (fun i => staticWorkerHost n (idx + i)) hosts.
Proof.
  induction hosts as [|h rest IH]; intros idx; simpl; [done|].
  rewrite IH, Nat.add_0_r. f_equal. apply imap_ext. intros i x _. simpl.
  f_equal. lia.
Qed.

Lemma imap_plus_0 {A B} (f : nat -> A -> B) (l : list A) :
  imap (fun i => f (0 + i)%nat) l = imap f l.
Proof. apply imap_ext. intros i x _. reflexivity. Qed.

Lemma length_promote (l : list HostConfig) : length (promote l) = length l.
Proof. by destruct l. Qed.

Lemma SetDefaults_Hosts_fields obj :
  SetDefaults_Hosts obj =
  set_Hosts
    (fst (hosts_after (ControlPlane_Hosts obj) (StaticWorkers_Hosts obj)))
    (snd (hosts_after (ControlPlane_Hosts obj) (StaticWorkers_Hosts obj)))
    obj.
Proof.
  unfold SetDefaults_Hosts, hosts_after. destruct obj as [cp sw].
  cbn [ControlPlane_Hosts StaticWorkers_Hosts].
  destruct cp as [|h cp]; [reflexivity|].
  remember (h :: cp) as l eqn:El.
  rewrite controlPlaneLoop_spec, staticWorkersLoop_spec, !imap_plus_0.
  cbn [andb fst snd]. fold (promote (imap controlPlaneHost l)).
  destruct (existsb IsLeader l); cbn [negb].
  - by rewrite length_imap.
  - by rewrite length_promote, length_imap.
Qed.

(** ** Each defaulting function assigns its own field *)

Lemma SetDefaults_APIEndpoints_fields obj :
  SetDefaults_APIEndpoints obj =
  set_APIEndpoint
    (endpoint_after (ControlPlane_Hosts obj) (APIEndpoint_ obj)) obj.
Proof.
  destruct obj as [cp sw [host port]]. unfold endpoint_after.
  unfold SetDefaults_APIEndpoints. cbn.
  destruct (is_empty host); [destruct cp|]; reflexivity.
Qed.

Lemma SetDefaults_ContainerRuntime_fields obj :
  SetDefaults_ContainerRuntime obj =
  set_ContainerRuntime
    (runtime_after (Versions_Kubernetes obj) (ContainerRuntime obj)) obj.
Proof.
  destruct obj as [cp sw ep ver [docker containerd]]. unfold runtime_after.
  unfold SetDefaults_ContainerRuntime.
  cbn -[semver.NewVersion semver.Check_gte_1_22].
  destruct docker, containerd; try reflexivity.
  destruct (semver.NewVersion ver) as [v|]; [|reflexivity].
  destruct (semver.Check_gte_1_22 v); reflexivity.
Qed.

Lemma SetDefaults_ClusterNetwork_fields obj :
  SetDefaults_ClusterNetwork obj =
  set_ClusterNetwork
    (network_after (CloudProvider obj) (ClusterNetwork obj)) obj.
Proof. destruct obj. reflexivity. Qed.

Lemma SetDefaults_Proxy_fields obj :
  SetDefaults_Proxy obj =
  set_Proxy (proxy_after (ClusterNetwork obj) (Proxy obj)) obj.
Proof.
  destruct obj as [cp sw ep ver cr cn p [http https noproxy]].
  unfold proxy_after, SetDefaults_Proxy. cbn -[strings_Join].
  destruct (is_empty http && is_empty https); reflexivity.
Qed.

Lemma SetDefaults_MachineController_fields obj :
  SetDefaults_MachineController obj =
  set_MachineController (machineController_after (MachineController obj)) obj.
Proof.
  destruct obj as [cp sw ep ver cr cn p px mc].
  destruct mc; reflexivity.
Qed.

Lemma SetDefaults_SystemPackages_fields obj :
  SetDefaults_SystemPackages obj =
  set_SystemPackages (systemPackages_after (SystemPackages obj)) obj.
Proof.
  destruct obj as [cp sw ep ver cr cn p px mc sp].
  destruct sp; reflexivity.
Qed.

Lemma SetDefaults_AssetConfiguration_fields obj :
  SetDefaults_AssetConfiguration obj =
  set_AssetConfiguration
    (assets_after (RegistryConfiguration obj) (AssetConfiguration obj)) obj.
Proof.
  destruct obj as [cp sw ep ver cr cn p px mc sp rc ac].
  unfold assets_after, SetDefaults_AssetConfiguration. cbn.
  destruct rc as [[reg]|]; cbn; [|by destruct ac].
  destruct (is_empty reg); [by destruct ac | reflexivity].
Qed.

Lemma SetDefaults_Features_fields obj :
  SetDefaults_Features obj = set_Features (features_after (Features obj)) obj.
Proof. destruct obj. reflexivity. Qed.

Lemma SetDefaults_Addons_fields obj :
  SetDefaults_Addons obj = set_Addons (addons_after (Addons obj)) obj.
Proof.
  destruct obj as [cp sw ep ver cr cn p px mc sp rc ac f a].
  unfold addons_after, SetDefaults_Addons. cbn.
  destruct a as [[enable path]|]; [|reflexivity].
  cbn. destruct enable; reflexivity.
Qed.

(** The whole pass, field by field. *)
Lemma SetDefaults_KubeOneCluster_normal_form obj :
  SetDefaults_KubeOneCluster obj = normal_form obj.
Proof.
  unfold SetDefaults_KubeOneCluster.
  rewrite SetDefaults_Addons_fields, SetDefaults_Features_fields,
    SetDefaults_AssetConfiguration_fields, SetDefaults_SystemPackages_fields,
    SetDefaults_MachineController_fields, SetDefaults_Proxy_fields,
    SetDefaults_ClusterNetwork_fields, SetDefaults_ContainerRuntime_fields.
  unfold SetDefaults_Versions.
  rewrite SetDefaults_APIEndpoints_fields, SetDefaults_Hosts_fields.
  destruct obj. reflexivity.
Qed.

(** ** One host *)

Lemma controlPlaneHost_idem i h :
  controlPlaneHost i (controlPlaneHost i h) = controlPlaneHost i h.
Proof. host_cases h; reflexivity. Qed.

Lemma staticWorkerHost_idem n i h :
  staticWorkerHost n i (staticWorkerHost n i h) = staticWorkerHost n i h.
Proof. host_cases h; reflexivity. Qed.

Lemma controlPlaneHost_set_IsLeader i b h :
  controlPlaneHost i (set_IsLeader b h) = set_IsLeader b (controlPlaneHost i h).
Proof. host_cases h; reflexivity. Qed.

Lemma controlPlaneHost_IsLeader i h :
  IsLeader (controlPlaneHost i h) = IsLeader h.
Proof. host_cases h; reflexivity. Qed.

Lemma controlPlaneHost_ID i h : ID (controlPlaneHost i h) = Z.of_nat i.
Proof. host_cases h; reflexivity. Qed.

Lemma staticWorkerHost_ID n i h :
  ID (staticWorkerHost n i h) = Z.of_nat (n + i).
Proof.
  transitivity (Z.of_nat i + Z.of_nat n); [|lia].
  host_cases h; reflexivity.
Qed.

(** ** Host lists *)

Lemma imap_imap_same {A} (f : nat -> A -> A) (l : list A) :
  (forall i x, f i (f i x) = f i x) -> imap f (imap f l) = imap f l.
Proof.
  intros Hf. apply list_eq. intros i.
  rewrite !list_lookup_imap. destruct (l !! i); simpl; [|done].
  by rewrite Hf.
Qed.

Lemma map_IsLeader_controlPlane (cp : list HostConfig) :
  map IsLeader (imap controlPlaneHost cp) = map IsLeader cp.
Proof.
  apply list_eq. intros i.
  change (map IsLeader) with (fmap (M:=list) IsLeader).
  rewrite !list_lookup_fmap, list_lookup_imap.
  destruct (cp !! i); simpl; [|done].
  by rewrite controlPlaneHost_IsLeader.
Qed.

Lemma existsb_map_IsLeader (l : list HostConfig) :
  existsb IsLeader l = existsb id (map IsLeader l).
Proof. induction l as [|h l IH]; simpl; [done|]. by rewrite IH. Qed.

Lemma leaders_map_IsLeader (l : list HostConfig) :
  leaders l = length (List.filter id (map IsLeader l)).
Proof.
  unfold leaders. induction l as [|h l IH]; simpl; [done|].
  unfold id at 1. destruct (IsLeader h); simpl; by rewrite IH.
Qed.

Lemma leaders_zero (l : list HostConfig) :
  existsb IsLeader l = false <-> leaders l = 0%nat.
Proof.
  unfold leaders. induction l as [|h l IH]; simpl; [done|].
  destruct (IsLeader h); simpl; [split; intros; discriminate | exact IH].
Qed.

Lemma leaders_cons h (l : list HostConfig) :
  leaders (h :: l) = ((if IsLeader h then 1 else 0) + leaders l)%nat.
Proof. unfold leaders. simpl. by destruct (IsLeader h). Qed.

Lemma imap_controlPlaneHost_promote l :
  imap controlPlaneHost (promote l) = promote (imap controlPlaneHost l).
Proof.
  destruct l as [|h l]; [reflexivity|]. cbn [promote imap].
  by rewrite controlPlaneHost_set_IsLeader.
Qed.

Lemma promote_idem l : promote (promote l) = promote l.
Proof. destruct l as [|h l]; [reflexivity|]. by destruct h. Qed.

Lemma existsb_promote l : l <> [] -> existsb IsLeader (promote l) = true.
Proof. destruct l as [|h l]; [done|]. reflexivity. Qed.

Lemma existsb_controlPlane l :
  existsb IsLeader (imap controlPlaneHost l) = existsb IsLeader l.
Proof.
  by rewrite existsb_map_IsLeader, map_IsLeader_controlPlane,
    <- existsb_map_IsLeader.
Qed.

Lemma hosts_after_nonempty cp sw :
  cp <> [] ->
  hosts_after cp sw =
  (if existsb IsLeader cp then imap controlPlaneHost cp
   else promote (imap controlPlaneHost cp),
   imap (staticWorkerHost (length cp)) sw).
Proof. destruct cp; [done|reflexivity]. Qed.

Lemma length_hosts_after cp sw :
  length (fst (hosts_after cp sw)) = length cp /\
  length (snd (hosts_after cp sw)) = length sw.
Proof.
  destruct cp as [|h cp]; [done|].
  rewrite hosts_after_nonempty by done. cbn [fst snd].
  split; [|by rewrite length_imap].
  destruct (existsb _ _); by rewrite ?length_promote, length_imap.
Qed.

Lemma hosts_after_idem cp sw :
  hosts_after (fst (hosts_after cp sw)) (snd (hosts_after cp sw)) =
  hosts_after cp sw.
Proof.
  destruct cp as [|h cp]; [reflexivity|].
  remember (h :: cp) as l eqn:El.
  assert (Hl : l <> []) by (by subst l).
  destruct (length_hosts_after l sw) as [Hlen _].
  rewrite (hosts_after_nonempty l sw Hl) in *. cbn [fst snd] in *.
  set (cp2 := if existsb IsLeader l then imap controlPlaneHost l
              else promote (imap controlPlaneHost l)) in *.
  assert (Hcp2 : cp2 <> []).
  { intros E. rewrite E in Hlen. subst l. discriminate. }
  assert (Himap : imap controlPlaneHost cp2 = cp2).
  { subst cp2. destruct (existsb IsLeader l).
    - apply imap_imap_same, controlPlaneHost_idem.
    - rewrite imap_controlPlaneHost_promote. f_equal.
      apply imap_imap_same, controlPlaneHost_idem. }
  assert (Hex : existsb IsLeader cp2 = true).
  { subst cp2. destruct (existsb IsLeader l) eqn:Ex.
    - by rewrite existsb_controlPlane.
    - apply existsb_promote. intros E.
      apply (f_equal length) in E. rewrite length_imap in E.
      subst l. discriminate. }
  rewrite (hosts_after_nonempty cp2 _ Hcp2), Himap, Hex, Hlen.
  f_equal. apply imap_imap_same. intros. apply staticWorkerHost_idem.
Qed.

(** ** The other fields *)

Lemma endpoint_after_idem cp ep :
  endpoint_after cp (endpoint_after cp ep) = endpoint_after cp ep.
Proof.
  destruct ep as [h port]. unfold endpoint_after, SetDefaults_APIEndpoints.
  cbn. destruct h as [|a h]; cbn.
  - destruct cp as [|h0 cp]; cbn; [reflexivity|].
    destruct (PublicAddress h0); cbn; by case_defaulti port.
  - by case_defaulti port.
Qed.

Lemma runtime_after_idem version cr :
  runtime_after version (runtime_after version cr) = runtime_after version cr.
Proof.
  destruct cr as [docker containerd].
  unfold runtime_after, SetDefaults_ContainerRuntime.
  cbn -[semver.NewVersion semver.Check_gte_1_22].
  destruct docker, containerd; try reflexivity.
  destruct (semver.NewVersion version) as [v|];
    cbn -[semver.NewVersion semver.Check_gte_1_22]; [|reflexivity].
  destruct (semver.Check_gte_1_22 v); reflexivity.
Qed.

(** Whatever the provider, [defaultCanal] keeps the MTU it starts with:
    [defaulti] returns its first argument, which is not zero. *)
Lemma defaultCanal_eq p : defaultCanal p = mkCanalSpec DefaultCanalMTU.
Proof.
  unfold defaultCanal.
  destruct (AWS p), (GCE p), (Hetzner p), (Openstack p); reflexivity.
Qed.

Lemma network_after_eq p cn :
  network_after p cn =
  ClusterNetwork
    (SetDefaults_ClusterNetwork (set_ClusterNetwork cn zeroCluster)).
Proof.
  unfold network_after, SetDefaults_ClusterNetwork.
  cbn -[defaultCanal]. by rewrite !defaultCanal_eq.
Qed.

Lemma network_after_idem p cn :
  network_after p (network_after p cn) = network_after p cn.
Proof.
  rewrite !network_after_eq.
  destruct cn as [pod svc dns ports cni].
  unfold SetDefaults_ClusterNetwork. cbn.
  f_equal.
  - by destruct pod.
  - by destruct svc.
  - by destruct dns.
  - by destruct ports.
  - f_equal. destruct cni as [[canal cilium]|]; cbn; [|reflexivity].
    destruct canal as [[mtu]|], cilium as [[kpr]|]; cbn;
      try destruct (mtu =? 0) eqn:E; try destruct kpr; cbn;
      rewrite ?E; reflexivity.
Qed.

Lemma proxy_after_unset cn px :
  HTTP px = "" -> HTTPS px = "" -> proxy_after cn px = px.
Proof.
  destruct px as [http https noproxy]. cbn. intros -> ->. reflexivity.
Qed.

Lemma proxy_after_HTTP cn px :
  HTTP (proxy_after cn px) = HTTP px /\ HTTPS (proxy_after cn px) = HTTPS px.
Proof.
  destruct px as [http https noproxy].
  unfold proxy_after, SetDefaults_Proxy. cbn -[strings_Join].
  destruct (is_empty http && is_empty https); split; reflexivity.
Qed.

Lemma machineController_after_idem mc :
  machineController_after (machineController_after mc) =
  machineController_after mc.
Proof. by destruct mc. Qed.

Lemma systemPackages_after_idem sp :
  systemPackages_after (systemPackages_after sp) = systemPackages_after sp.
Proof. by destruct sp. Qed.

Lemma assets_after_idem rc ac :
  assets_after rc (assets_after rc ac) = assets_after rc ac.
Proof.
  destruct ac as [k c e m], rc as [[reg]|]; [|reflexivity].
  unfold assets_after, SetDefaults_AssetConfiguration. cbn.
  destruct reg as [|a reg]; [reflexivity|].
  cbn. destruct k, c, e, m; reflexivity.
Qed.

Lemma features_after_idem f :
  features_after (features_after f) = features_after f.
Proof.
  destruct f as [ms sal oidc].
  unfold features_after, SetDefaults_Features. cbn. f_equal.
  - by destruct ms.
  - destruct sal as [[[] [path age backup size]]|]; [|reflexivity..].
    cbn. do 2 f_equal. unfold defaultStaticAuditLogConfig. cbn.
    f_equal; [by destruct path|by case_defaulti age
             |by case_defaulti backup|by case_defaulti size].
  - destruct oidc as [[[] [a b c d e g]]|]; [|reflexivity..].
    cbn. do 2 f_equal. unfold defaultOpenIDConnect. cbn.
    f_equal; [by destruct a|by destruct b|by destruct c|by destruct d
             |by destruct e|by destruct g].
Qed.

Lemma addons_after_idem a : addons_after (addons_after a) = addons_after a.
Proof.
  destruct a as [[[] path]|]; [|reflexivity..].
  unfold addons_after, SetDefaults_Addons. cbn. by destruct path.
Qed.

Lemma at_most_one_v_trim version :
  at_most_one_v version = true ->
  strings_TrimPrefix_v (strings_TrimPrefix_v version) =
  strings_TrimPrefix_v version.
Proof.
  destruct version as [|a [|b rest]]; [done| |].
  - intros _. unfold strings_TrimPrefix_v.
    destruct a as [[] [] [] [] [] [] [] []]; reflexivity.
  - unfold at_most_one_v, strings_TrimPrefix_v.
    destruct a as [[] [] [] [] [] [] [] []]; try reflexivity.
    destruct b as [[] [] [] [] [] [] [] []]; try reflexivity.
    discriminate.
Qed.

(** Normalising twice is normalising once and defaulting the proxy again. *)
Lemma normal_form_twice obj :
  at_most_one_v (Versions_Kubernetes obj) = true ->
  normal_form (normal_form obj) =
  set_Proxy
    (proxy_after (ClusterNetwork (normal_form obj)) (Proxy (normal_form obj)))
    (normal_form obj).
Proof.
  intros Hv. unfold normal_form at 1.
  cbn [normal_form ControlPlane_Hosts StaticWorkers_Hosts APIEndpoint_
       Versions_Kubernetes ContainerRuntime ClusterNetwork CloudProvider
       Proxy MachineController SystemPackages RegistryConfiguration
       AssetConfiguration Features Addons set_Proxy].
  rewrite hosts_after_idem, endpoint_after_idem, (at_most_one_v_trim _ Hv),
    runtime_after_idem, network_after_idem, machineController_after_idem,
    systemPackages_after_idem, assets_after_idem, features_after_idem,
    addons_after_idem.
  reflexivity.
Qed.

(** ** Normalising twice *)

(** C1 (amended).  For every cluster whose Kubernetes version has at most
    one leading [v], normalising a normalised cluster only runs the proxy
    defaulting again; so when neither an HTTP nor an HTTPS proxy is
    configured, normalising twice is normalising once. *)
Theorem normalization_idempotent_without_proxy obj :
  at_most_one_v (Versions_Kubernetes obj) = true ->
  SetDefaults_KubeOneCluster (SetDefaults_KubeOneCluster obj) =
    SetDefaults_Proxy (SetDefaults_KubeOneCluster obj) /\
  (HTTP (Proxy obj) = "" -> HTTPS (Proxy obj) = "" ->
   SetDefaults_KubeOneCluster (SetDefaults_KubeOneCluster obj) =
     SetDefaults_KubeOneCluster obj).
Proof.
  intros Hv.
  assert (Htwice :
    SetDefaults_KubeOneCluster (SetDefaults_KubeOneCluster obj) =
    SetDefaults_Proxy (SetDefaults_KubeOneCluster obj)).
  { rewrite SetDefaults_Proxy_fields.
    rewrite !SetDefaults_KubeOneCluster_normal_form.
    by apply normal_form_twice. }
  split; [exact Htwice|].
  intros Hhttp Hhttps. rewrite Htwice, SetDefaults_Proxy_fields.
  rewrite SetDefaults_KubeOneCluster_normal_form.
  cbn [normal_form Proxy ClusterNetwork].
  rewrite (proxy_after_unset _ (proxy_after _ _)).
  - reflexivity.
  - by rewrite (proj1 (proxy_after_HTTP _ _)).
  - by rewrite (proj2 (proxy_after_HTTP _ _)).
Qed.

Lemma normalization_idempotent_without_proxy_witness :
  SetDefaults_KubeOneCluster (SetDefaults_KubeOneCluster awsCluster) =
  SetDefaults_KubeOneCluster awsCluster.
Proof.
  apply (normalization_idempotent_without_proxy awsCluster); reflexivity.
Defined.

(** C1 as stated fails behind a proxy: the second pass puts the default
    entries in front of the no-proxy list that the first pass built. *)
Lemma normalization_not_idempotent_with_proxy :
  NoProxy (Proxy (SetDefaults_KubeOneCluster proxiedCluster)) =
    "127.0.0.1/8,localhost,cluster.local,10.244.0.0/16,10.96.0.0/12" /\
  NoProxy (Proxy (SetDefaults_KubeOneCluster
                    (SetDefaults_KubeOneCluster proxiedCluster))) =
    "127.0.0.1/8,localhost,cluster.local,10.244.0.0/16,10.96.0.0/12,127.0.0.1/8,localhost,cluster.local,10.244.0.0/16,10.96.0.0/12" /\
  SetDefaults_KubeOneCluster (SetDefaults_KubeOneCluster proxiedCluster) <>
    SetDefaults_KubeOneCluster proxiedCluster.
Proof.
  split; [vm_compute; reflexivity|].
  split; [vm_compute; reflexivity|].
  intros H. apply (f_equal (fun o => String.length (NoProxy (Proxy o)))) in H.
  vm_compute in H. discriminate.
Qed.

(** Why the version must not start with two [v]: each pass strips one. *)
Lemma second_pass_strips_second_v :
  Versions_Kubernetes (SetDefaults_KubeOneCluster doubleVCluster) =
    "v1.23.0" /\
  Versions_Kubernetes
    (SetDefaults_KubeOneCluster (SetDefaults_KubeOneCluster doubleVCluster)) =
    "1.23.0".
Proof. split; vm_compute; reflexivity. Qed.

(** ** Leaders *)

Lemma leaders_controlPlane cp :
  leaders (imap controlPlaneHost cp) = leaders cp.
Proof.
  by rewrite leaders_map_IsLeader, map_IsLeader_controlPlane,
    <- leaders_map_IsLeader.
Qed.

Lemma leaders_promote l :
  l <> [] -> leaders l = 0%nat -> leaders (promote l) = 1%nat.
Proof.
  destruct l as [|h l]; [done|]. intros _. cbn [promote].
  rewrite !leaders_cons. cbn [IsLeader set_IsLeader].
  destruct (IsLeader h); lia.
Qed.

Lemma ControlPlane_Hosts_after obj :
  ControlPlane_Hosts (SetDefaults_KubeOneCluster obj) =
  fst (hosts_after (ControlPlane_Hosts obj) (StaticWorkers_Hosts obj)).
Proof. by rewrite SetDefaults_KubeOneCluster_normal_form. Qed.

Lemma StaticWorkers_Hosts_after obj :
  StaticWorkers_Hosts (SetDefaults_KubeOneCluster obj) =
  snd (hosts_after (ControlPlane_Hosts obj) (StaticWorkers_Hosts obj)).
Proof. by rewrite SetDefaults_KubeOneCluster_normal_form. Qed.

(** C2 (amended).  For every cluster with at least one control-plane host
    of which at most one carries the leader flag, exactly one control-plane
    host is the leader after normalisation: the first one when none carried
    the flag, and the flagged one, with no other host promoted, when one
    did. *)
Theorem exactly_one_leader obj :
  ControlPlane_Hosts obj <> [] ->
  (leaders (ControlPlane_Hosts obj) <= 1)%nat ->
  let cp' := ControlPlane_Hosts (SetDefaults_KubeOneCluster obj) in
  leaders cp' = 1%nat /\
  (leaders (ControlPlane_Hosts obj) = 0%nat ->
   IsLeader <$> head cp' = Some true) /\
  (leaders (ControlPlane_Hosts obj) = 1%nat ->
   map IsLeader cp' = map IsLeader (ControlPlane_Hosts obj)).
Proof.
  intros Hne Hle cp'. subst cp'. rewrite ControlPlane_Hosts_after.
  rewrite hosts_after_nonempty by done. cbn [fst].
  set (cp := ControlPlane_Hosts obj) in *.
  assert (Hne' : imap controlPlaneHost cp <> []).
  { intros E. apply (f_equal length) in E. rewrite length_imap in E.
    destruct cp; [done|discriminate]. }
  destruct (existsb IsLeader cp) eqn:Ex.
  - assert (leaders cp <> 0%nat).
    { intros E. apply leaders_zero in E. congruence. }
    rewrite leaders_controlPlane, map_IsLeader_controlPlane.
    split; [lia|]. split; [intros; lia|done].
  - apply leaders_zero in Ex.
    rewrite leaders_promote by (by rewrite ?leaders_controlPlane).
    split; [reflexivity|]. split; [|intros; lia].
    intros _. destruct (imap controlPlaneHost cp); [done|reflexivity].
Qed.

Lemma exactly_one_leader_witness :
  leaders (ControlPlane_Hosts (SetDefaults_KubeOneCluster awsCluster)) = 1%nat.
Proof.
  apply (exactly_one_leader awsCluster); [discriminate|vm_compute; lia].
Defined.

(** C2 as stated fails when two control-plane hosts carry the flag: both
    keep it. *)
Lemma two_leaders_stay_two_leaders :
  ControlPlane_Hosts twoLeadersCluster <> [] /\
  leaders (ControlPlane_Hosts (SetDefaults_KubeOneCluster twoLeadersCluster))
    = 2%nat.
Proof. split; [discriminate|vm_compute; reflexivity]. Qed.

(** ** Host IDs *)

Lemma map_ID_imap (f : nat -> HostConfig -> HostConfig) n l :
  (forall i h, ID (f i h) = Z.of_nat (n + i)) ->
  map ID (imap f l) = map Z.of_nat (seq n (length l)).
Proof.
  intros Hf. apply list_eq. intros i.
  change (map ID) with (fmap (M:=list) ID).
  change (map Z.of_nat) with (fmap (M:=list) Z.of_nat).
  rewrite !list_lookup_fmap, list_lookup_imap.
  destruct (l !! i) as [h|] eqn:E; simpl.
  - apply lookup_lt_Some in E. rewrite lookup_seq_lt by done. simpl.
    by rewrite Hf.
  - apply lookup_ge_None in E. by rewrite lookup_seq_ge.
Qed.

Lemma map_ID_promote l : map ID (promote l) = map ID l.
Proof. by destruct l. Qed.

(** C3 (amended).  For every cluster that has a control-plane host, or no
    static worker either, the IDs of the control-plane hosts followed by
    those of the static workers are 0, 1, 2, ... after normalisation; no
    host is added or dropped. *)
Theorem host_ids_contiguous obj :
  ControlPlane_Hosts obj <> [] \/ StaticWorkers_Hosts obj = [] ->
  let obj' := SetDefaults_KubeOneCluster obj in
  map ID (ControlPlane_Hosts obj' ++ StaticWorkers_Hosts obj') =
    map Z.of_nat
      (seq 0 (length (ControlPlane_Hosts obj) +
              length (StaticWorkers_Hosts obj))) /\
  length (ControlPlane_Hosts obj') = length (ControlPlane_Hosts obj) /\
  length (StaticWorkers_Hosts obj') = length (StaticWorkers_Hosts obj).
Proof.
  intros Hcase obj'. subst obj'.
  rewrite ControlPlane_Hosts_after, StaticWorkers_Hosts_after.
  split; [|apply length_hosts_after].
  destruct (ControlPlane_Hosts obj) as [|h cp] eqn:Ecp.
  - destruct Hcase as [? | ->]; [done|]. reflexivity.
  - rewrite <- Ecp. rewrite hosts_after_nonempty by (by rewrite Ecp).
    cbn [fst snd]. rewrite map_app, seq_app, map_app. f_equal.
    + destruct (existsb _ _); rewrite ?map_ID_promote;
        by apply map_ID_imap, controlPlaneHost_ID.
    + apply map_ID_imap. intros i x. rewrite staticWorkerHost_ID.
      f_equal.
Qed.

Lemma host_ids_contiguous_witness :
  map ID (ControlPlane_Hosts (SetDefaults_KubeOneCluster awsCluster) ++
          StaticWorkers_Hosts (SetDefaults_KubeOneCluster awsCluster)) =
  [0; 1; 2].
Proof.
  apply (host_ids_contiguous awsCluster). left. discriminate.
Defined.

(** C3 as stated fails without control-plane hosts: the static workers
    keep the IDs they came with. *)
Lemma workers_without_control_plane_keep_ids :
  let obj' := SetDefaults_KubeOneCluster workersOnlyCluster in
  map ID (ControlPlane_Hosts obj' ++ StaticWorkers_Hosts obj') = [0; 0].
Proof. vm_compute. reflexivity. Qed.

(** ** The Canal MTU *)

Lemma canalMTU_after obj :
  mtu_unset obj ->
  canalMTU (SetDefaults_KubeOneCluster obj) = Some DefaultCanalMTU.
Proof.
  intros Hunset. rewrite SetDefaults_KubeOneCluster_normal_form.
  unfold canalMTU in *. cbn [normal_form ClusterNetwork].
  rewrite network_after_eq. unfold mtu_unset, canalMTU in Hunset.
  destruct (ClusterNetwork obj) as [pod svc dns ports cni].
  cbn [CNI_] in Hunset. unfold SetDefaults_ClusterNetwork. cbn.
  destruct Hunset as [-> | Hzero]; [reflexivity|].
  destruct cni as [[[[mtu]|] cilium]|]; try discriminate.
  cbn in Hzero. injection Hzero as ->. cbn.
  destruct cilium as [[kpr]|]; [destruct kpr|]; reflexivity.
Qed.

(** C6, as the code has it.  For every cluster on AWS that leaves the CNI
    MTU unset, the Canal MTU after normalisation is
    [defaulti DefaultCanalMTU 8951], which is 1450, the value for clusters
    without a provider, and not 8951. *)
Theorem aws_canal_mtu_is_1450 obj :
  AWS (CloudProvider obj) <> None ->
  mtu_unset obj ->
  MTU (defaultCanal (CloudProvider obj)) = defaulti DefaultCanalMTU 8951 /\
  canalMTU (SetDefaults_KubeOneCluster obj) =
    Some (defaulti DefaultCanalMTU 8951) /\
  defaulti DefaultCanalMTU 8951 = 1450.
Proof.
  intros Haws Hunset. split; [|split; [|reflexivity]].
  - unfold defaultCanal. by destruct (AWS (CloudProvider obj)).
  - by apply canalMTU_after.
Qed.

Lemma aws_canal_mtu_is_1450_witness :
  canalMTU (SetDefaults_KubeOneCluster awsCluster) = Some 1450.
Proof.
  apply (aws_canal_mtu_is_1450 awsCluster); [discriminate|].
  left. reflexivity.
Defined.

(** The half of C6 that the code does meet: without a provider the MTU
    is 1450. *)
Lemma no_provider_canal_mtu_is_1450 obj :
  no_provider (CloudProvider obj) ->
  mtu_unset obj ->
  canalMTU (SetDefaults_KubeOneCluster obj) = Some 1450.
Proof. intros _. apply canalMTU_after. Qed.

(** ** The container runtime *)

(** C7.  For every cluster without a container runtime chosen: with
    Kubernetes version ["v1.23.0"] normalisation leaves version ["1.23.0"]
    and selects containerd; with ["v1.20.5"] it leaves version ["1.20.5"]
    and no runtime. *)
Theorem runtime_by_version obj :
  Docker (ContainerRuntime obj) = None ->
  Containerd (ContainerRuntime obj) = None ->
  let new := SetDefaults_KubeOneCluster
               (set_Versions_Kubernetes "v1.23.0" obj) in
  let old := SetDefaults_KubeOneCluster
               (set_Versions_Kubernetes "v1.20.5" obj) in
  Versions_Kubernetes new = "1.23.0" /\
  ContainerRuntime new = mkContainerRuntimeConfig None (Some tt) /\
  Versions_Kubernetes old = "1.20.5" /\
  ContainerRuntime old = mkContainerRuntimeConfig None None.
Proof.
  intros Hd Hc new old. subst new old.
  rewrite !SetDefaults_KubeOneCluster_normal_form.
  destruct obj as [cp sw ep ver [docker containerd]].
  cbn in Hd, Hc. subst docker containerd.
  cbn [normal_form set_Versions_Kubernetes Versions_Kubernetes
       ContainerRuntime].
  repeat split; vm_compute; reflexivity.
Qed.

Lemma runtime_by_version_witness :
  ContainerRuntime
    (SetDefaults_KubeOneCluster (set_Versions_Kubernetes "v1.23.0" awsCluster))
  = mkContainerRuntimeConfig None (Some tt).
Proof. apply (runtime_by_version awsCluster); reflexivity. Defined.

End defaulting_facts.

(** * Properties of [certificate] *)
Module certificate_facts.
Import certificate.

Section CAKeyPair.

Variable KubernetesCACertPath KubernetesCAKeyPath : string.
Variable ParseCertsPEM : bytes -> result (list Certificate).
Variable ParsePrivateKeyPEM : bytes -> result PrivateKey.

Local Abbreviation CAKeyPair :=
  (certificate.CAKeyPair KubernetesCACertPath KubernetesCAKeyPath
     ParseCertsPEM ParsePrivateKeyPEM).

(** C5.  [CAKeyPair] checks in this order, and stops at the first check
    that fails: the certificate entry is there, the key entry is there
    (else a not-found error that names the entry), the certificate entry
    parses (else the parser's error), it holds a certificate (else the
    empty-certificate error), the key entry parses (else the parser's
    error), the key is an RSA key (else the key-type error).  When all
    pass it returns the key and the first certificate. *)
Theorem CAKeyPair_outcomes (KubernetesPKI : gmap string bytes) :
  (KubernetesPKI !! KubernetesCACertPath = None ->
   CAKeyPair KubernetesPKI = Err (fmt_Errorf_not_found KubernetesCACertPath))
  /\
  (KubernetesPKI !! KubernetesCAKeyPath = None ->
   exists name,
     CAKeyPair KubernetesPKI = Err (fmt_Errorf_not_found name) /\
     KubernetesPKI !! name = None /\
     (is_Some (KubernetesPKI !! KubernetesCACertPath) ->
      name = KubernetesCAKeyPath))
  /\
  (forall caCert caKey,
     KubernetesPKI !! KubernetesCACertPath = Some caCert ->
     KubernetesPKI !! KubernetesCAKeyPath = Some caKey ->
     (forall e, ParseCertsPEM caCert = Err e ->
                CAKeyPair KubernetesPKI = Err e) /\
     (ParseCertsPEM caCert = Ok [] ->
      CAKeyPair KubernetesPKI =
      Err (errors_New
             "ca.crt does not contain at least one valid certificate")) /\
     (forall cert certs,
        ParseCertsPEM caCert = Ok (cert :: certs) ->
        (forall e, ParsePrivateKeyPEM caKey = Err e ->
                   CAKeyPair KubernetesPKI = Err e) /\
        (forall key, ParsePrivateKeyPEM caKey = Ok key ->
                     Algorithm key <> RSA ->
                     CAKeyPair KubernetesPKI =
                     Err (errors_New
                            "private key is not a RSA private key")) /\
        (forall key, ParsePrivateKeyPEM caKey = Ok key ->
                     Algorithm key = RSA ->
                     CAKeyPair KubernetesPKI = Ok (key, cert)))).
Proof.
  unfold certificate.CAKeyPair.
  split; [by intros ->|]. split.
  - intros Hkey. destruct (KubernetesPKI !! KubernetesCACertPath) eqn:Hcert.
    + exists KubernetesCAKeyPath. by rewrite Hkey.
    + exists KubernetesCACertPath. repeat split; [done|].
      intros [? ?]. discriminate.
  - intros caCert caKey -> ->. split; [by intros e ->|].
    split; [by intros ->|]. intros cert certs ->. cbn.
    split; [by intros e ->|]. split.
    + intros key -> Halg. cbn. by destruct (Algorithm key).
    + intros key -> Halg. cbn. by rewrite Halg.
Qed.

End CAKeyPair.

Section NewSignedTLSCert.

Variable TLSCertName TLSKeyName KubernetesCACertName : string.
Variable newPrivateKey : result PrivateKey.
Variable encodeCertPEM : Certificate -> bytes.
Variable encodePrivateKeyPEM : PrivateKey -> bytes.

Local Abbreviation NewSignedTLSCert :=
  (certificate.NewSignedTLSCert TLSCertName TLSKeyName KubernetesCACertName
     newPrivateKey newSignedCert_model encodeCertPEM encodePrivateKeyPEM).

(** C4 (amended).  When the fresh key is drawn, [NewSignedTLSCert] returns
    the PEM texts of a certificate, of its key and of the CA certificate;
    the certificate has common name [<name>.<namespace>.svc], exactly the
    DNS names [<name>.<namespace>.svc.<domain>.] (with the dot of the root
    at the end) and [<name>.<namespace>.svc], server authentication as its
    only extended key usage, and is issued under the CA certificate's name
    and signed with the CA key. *)
Theorem NewSignedTLSCert_certificate name namespace domain caKey caCert key :
  newPrivateKey = Ok key ->
  exists cert,
    NewSignedTLSCert name namespace domain caKey caCert =
      Ok (<[KubernetesCACertName :=
              string_of_list_byte (encodeCertPEM caCert)]>
          (<[TLSKeyName :=
               string_of_list_byte (encodePrivateKeyPEM key)]>
           (<[TLSCertName :=
                string_of_list_byte (encodeCertPEM cert)]> ∅))) /\
    Subject_CommonName cert = name ++ "." ++ namespace ++ ".svc" /\
    DNSNames cert =
      [ (name ++ "." ++ namespace ++ ".svc") ++ "." ++ domain ++ ".";
        name ++ "." ++ namespace ++ ".svc" ] /\
    ExtKeyUsage_ cert = [ExtKeyUsageServerAuth] /\
    Issuer_CommonName cert = Subject_CommonName caCert /\
    SignedWith cert = KeyMaterial caKey /\
    PublicKey cert = KeyMaterial key.
Proof.
  intros Hkey. eexists.
  unfold certificate.NewSignedTLSCert.
  rewrite Hkey. cbn. repeat split.
Qed.

End NewSignedTLSCert.

Import certificate_samples.

Lemma CAKeyPair_outcomes_witness :
  let load :=
    certificate.CAKeyPair caCertPath caKeyPath parseCerts parseKey in
  load (pki [(caKeyPath, "rsa key")]) =
    Err (fmt_Errorf_not_found caCertPath) /\
  load (pki [(caCertPath, "one certificate"); (caKeyPath, "garbage")]) =
    Err (library_error "data does not contain a valid private key") /\
  load (pki [(caCertPath, "one certificate"); (caKeyPath, "ec key")]) =
    Err (errors_New "private key is not a RSA private key") /\
  load (pki [(caCertPath, "one certificate"); (caKeyPath, "rsa key")]) =
    Ok (caKey, caCert).
Proof.
  intros load. subst load. split; [|split; [|split]].
  - apply (CAKeyPair_outcomes caCertPath caKeyPath parseCerts parseKey).
    reflexivity.
  - eapply (CAKeyPair_outcomes caCertPath caKeyPath parseCerts parseKey);
      reflexivity.
  - eapply (CAKeyPair_outcomes caCertPath caKeyPath parseCerts parseKey);
      [reflexivity..|discriminate].
  - eapply (CAKeyPair_outcomes caCertPath caKeyPath parseCerts parseKey);
      reflexivity.
Defined.

Lemma NewSignedTLSCert_certificate_witness :
  exists cert,
    issue "metrics-server" "kube-system" "cluster.local" =
      Ok (<["ca.pem" := string_of_list_byte (printCert caCert)]>
          (<["key.pem" := string_of_list_byte (printKey leafKey)]>
           (<["cert.pem" := string_of_list_byte (printCert cert)]> ∅))) /\
    Subject_CommonName cert = "metrics-server.kube-system.svc".
Proof.
  destruct (NewSignedTLSCert_certificate "cert.pem" "key.pem" "ca.pem"
              (Ok leafKey) printCert printKey
              "metrics-server" "kube-system" "cluster.local"
              caKey caCert leafKey eq_refl) as (cert & Hret & Hcn & _).
  exists cert. split; [exact Hret|exact Hcn].
Defined.

(** C4 as stated fails on the second name: the certificate carries
    [metrics-server.kube-system.svc.cluster.local.], with a dot at the
    end, and not [metrics-server.kube-system.svc.cluster.local]. *)
Lemma fully_qualified_name_ends_with_dot :
  AltNames_DNSNames
    (certCfg "metrics-server" "kube-system" "cluster.local") =
    [ "metrics-server.kube-system.svc.cluster.local.";
      "metrics-server.kube-system.svc" ] /\
  ~ In "metrics-server.kube-system.svc.cluster.local"
      (AltNames_DNSNames
         (certCfg "metrics-server" "kube-system" "cluster.local")) /\
  (issue "metrics-server" "kube-system" "cluster.local"
     ≫= fun bundle => Ok (bundle !! "cert.pem")) =
    Ok (Some ("CN=metrics-server.kube-system.svc DNS=" ++
              "metrics-server.kube-system.svc.cluster.local. " ++
              "metrics-server.kube-system.svc")).
Proof.
  split; [reflexivity|]. split.
  - intros [H|[H|[]]]; discriminate.
  - vm_compute. reflexivity.
Qed.

End certificate_facts.

(** * Properties of [machinecontroller] *)
Module machinecontroller_facts.
Import machinecontroller machinecontroller_vocabulary.

Lemma filter_none {A} (P : A -> Prop) `{forall x, Decision (P x)}
    (l : list A) :
  (forall x, x ∈ l -> ~ P x) -> filter P l = [].
Proof.
  induction l as [|a l IH]; intros Hl; [done|].
  rewrite filter_cons_False by (apply Hl; left).
  apply IH. intros x Hx. apply Hl. by right.
Qed.

Section Package.

Context {AWSSpecFields JSONObject Taint NetworkConfig : Type}.
Variable json_Unmarshal_AWSSpec : bytes -> result (@AWSSpec AWSSpecFields).
Variable json_Marshal_AWSSpec : @AWSSpec AWSSpecFields -> result bytes.
Variable json_Unmarshal_object : bytes -> result JSONObject.
Variable json_Marshal_object : JSONObject -> result bytes.
Variable json_Marshal_providerSpec :
  @ProviderSpec Taint NetworkConfig -> string -> result bytes.
Context {Remote : Type}.
Variable CreateOrUpdate :
  Remote -> @MachineDeployment Taint -> result Remote.

Local Abbreviation machineSpec :=
  (machinecontroller.machineSpec (Taint:=Taint) (NetworkConfig:=NetworkConfig)
     json_Unmarshal_AWSSpec json_Marshal_AWSSpec json_Unmarshal_object).

Local Abbreviation createMachineDeployment :=
  (machinecontroller.createMachineDeployment
     json_Unmarshal_AWSSpec json_Marshal_AWSSpec json_Unmarshal_object
     json_Marshal_object json_Marshal_providerSpec).

Local Abbreviation prepared :=
  (machinecontroller_vocabulary.prepared
     json_Unmarshal_AWSSpec json_Marshal_AWSSpec json_Unmarshal_object
     json_Marshal_object json_Marshal_providerSpec).

Lemma createMachineDeployment_returns cluster workerset encoded replicas :
  prepared cluster workerset encoded ->
  Replicas workerset = Some replicas ->
  exists md,
    createMachineDeployment cluster workerset = Ok md /\
    Spec_Replicas (Spec md) = int32 replicas /\
    RollingUpdate (Strategy (Spec md)) = policy workerset.
Proof.
  intros (spec & raw & Hspec & Hraw & Henc) Hrep.
  unfold machinecontroller.createMachineDeployment. rewrite Hspec. cbn. rewrite Hraw. cbn.
  rewrite Henc. cbn. rewrite Hrep. cbn. unfold policy.
  destruct (Network (Config workerset)); eexists; repeat split.
Qed.



Lemma createMachineDeployment_nil_replicas cluster workerset encoded :
  Replicas workerset = None ->
  prepared cluster workerset encoded ->
  createMachineDeployment cluster workerset = Panic nil_pointer_dereference.
Proof.
  intros Hrep (spec & raw & Hspec & Hraw & Henc).
  unfold machinecontroller.createMachineDeployment. rewrite Hspec. cbn.
  rewrite Hraw. cbn. rewrite Henc. cbn. by rewrite Hrep.
Qed.

(** C10, as the code has it.  For a pool without a replica count whose
    payload and provider specification are in order,
    [createMachineDeployment] panics on the nil pointer; it returns neither
    a descriptor nor an error. *)
Theorem nil_replicas_panics cluster workerset encoded :
  Replicas workerset = None ->
  prepared cluster workerset encoded ->
  createMachineDeployment cluster workerset = Panic nil_pointer_dereference /\
  (forall md, createMachineDeployment cluster workerset <> Ok md) /\
  (forall e, createMachineDeployment cluster workerset <> Err e).
Proof.
  intros Hrep Hprep.
  rewrite (createMachineDeployment_nil_replicas _ _ _ Hrep Hprep).
  repeat split; discriminate.
Qed.

(** The panic reaches the caller of [CreateMachineDeployments], also after
    an earlier pool has been applied to the cluster. *)
Lemma panic_after_first_pool_applied cluster first md remote remote'
    second encoded rest :
  createMachineDeployment cluster first = Ok md ->
  CreateOrUpdate remote md = Ok remote' ->
  Replicas second = None ->
  prepared cluster second encoded ->
  applyMachineDeployments
    json_Unmarshal_AWSSpec json_Marshal_AWSSpec json_Unmarshal_object
    json_Marshal_object json_Marshal_providerSpec CreateOrUpdate
    cluster (first :: second :: rest) remote =
  Panic nil_pointer_dereference.
Proof.
  intros Hfirst Hremote Hrep Hprep. cbn [applyMachineDeployments].
  rewrite Hfirst. cbn. rewrite Hremote. cbn.
  by rewrite (createMachineDeployment_nil_replicas _ _ _ Hrep Hprep).
Qed.

(** No error of [createMachineDeployment] is about the replica count:
    with or without one, the errors are the same. *)
Lemma errors_ignore_replicas cluster workerset replicas e :
  createMachineDeployment cluster workerset = Err e ->
  createMachineDeployment cluster
    (mkDynamicWorkerConfig (Name workerset) replicas (Config workerset)) =
  Err e.
Proof.
  unfold machinecontroller.createMachineDeployment,
    machinecontroller.machineSpec.
  cbn [Config Replicas Name].
  destruct (CloudProviderSpec_ (Config workerset)); [|done].
  match goal with
  | |- context [wrapped (?m ≫= ?k) _] => destruct (m ≫= k) as [spec| |]
  end; cbn; [|done..].
  destruct (json_Marshal_object spec) as [raw| |]; cbn; [|done..].
  destruct (json_Marshal_providerSpec _ _) as [encoded| |]; cbn; [|done..].
  destruct (Replicas workerset), (Network (Config workerset)); cbn;
    discriminate.
Qed.

(** C9 (amended).  For an AWS pool whose payload parses and carries a tag
    map, the payload that is serialised again differs from the parsed one
    in its tags only: the cluster tag has the value ["shared"] and occurs
    once, and every tag under another key is as it was. *)
Theorem aws_cluster_tag cluster workerset provider specRaw awsSpec tags :
  AWS provider <> None ->
  CloudProviderSpec_ (Config workerset) = Some specRaw ->
  json_Unmarshal_AWSSpec specRaw = Ok awsSpec ->
  Tags awsSpec = Some tags ->
  exists tags' : gmap string string,
    machineSpec cluster workerset provider =
      (specRaw' ← wrapped
                    (json_Marshal_AWSSpec
                       (mkAWSSpec (Some tags') (OtherFields awsSpec)))
                    "could not marshal AWSSpec";
       wrapped (json_Unmarshal_object specRaw')
         "unable to parse the workerset spec") /\
    tags' !! tagName cluster = Some "shared" /\
    (forall key, key <> tagName cluster -> tags' !! key = tags !! key) /\
    length (filter (fun kv : string * string => kv.1 = tagName cluster)
              (map_to_list tags')) = 1%nat.
Proof.
  intros Haws Hraw Hparse Htags.
  exists (<[tagName cluster := tagValue]> tags).
  split; [|split; [|split]].
  - unfold machinecontroller.machineSpec.
    rewrite Hraw. destruct (AWS provider); [|done].
    rewrite Hparse. cbn. unfold taggedAWSSpec. by rewrite Htags.
  - apply lookup_insert_eq.
  - intros key Hkey. by apply lookup_insert_ne.
  - rewrite <- insert_delete_eq.
    rewrite map_to_list_insert by apply lookup_delete_eq.
    rewrite filter_cons_True by done. cbn [length]. f_equal.
    apply length_zero_iff_nil, filter_none. intros [key value] Hin Hkey.
    apply elem_of_map_to_list in Hin. cbn in Hkey. subst key.
    by rewrite lookup_delete_eq in Hin.
Qed.

End Package.

Import machinecontroller_samples.


Lemma nil_replicas_panics_witness :
  generate (prod []) (pool "team=infra" None None) =
  Panic nil_pointer_dereference.
Proof.
  apply (nil_replicas_panics
           unmarshalAWSSpec marshalAWSSpec unmarshalObject marshalObject
           marshalProviderSpec (prod []) (pool "team=infra" None None)
           (list_byte_of_string
              "aws:kubernetes.io/cluster/prod=shared,team=infra")).
  - reflexivity.
  - eexists _, _. split; [|split]; vm_compute; reflexivity.
Defined.

Lemma aws_cluster_tag_witness :
  exists tags' : gmap string string,
    payloadOf (prod []) (pool "team=infra" (Some 3) None) aws =
      (specRaw' ← wrapped (marshalAWSSpec (mkAWSSpec (Some tags') tt))
                    "could not marshal AWSSpec";
       wrapped (unmarshalObject specRaw')
         "unable to parse the workerset spec") /\
    tags' !! "kubernetes.io/cluster/prod" = Some "shared" /\
    tags' !! "team" = Some "infra".
Proof.
  destruct (aws_cluster_tag
              unmarshalAWSSpec marshalAWSSpec unmarshalObject
              (prod []) (pool "team=infra" (Some 3) None) aws
              (list_byte_of_string "team=infra")
              (mkAWSSpec (Some {["team" := "infra"]}) tt)
              {["team" := "infra"]})
    as (tags' & Hspec & Hshared & Hother & _).
  - discriminate.
  - reflexivity.
  - vm_compute. reflexivity.
  - reflexivity.
  - exists tags'. split; [exact Hspec|]. split; [exact Hshared|].
    rewrite Hother; [reflexivity|discriminate].
Defined.

(** C9 as stated fails for a payload that already has the cluster tag
    with another value: the tag [kubernetes.io/cluster/prod=owned] is not
    kept, the payload comes back with the value ["shared"]. *)
Lemma owned_cluster_tag_is_replaced :
  let payload := "kubernetes.io/cluster/prod=owned,team=infra" in
  (unmarshalAWSSpec (list_byte_of_string payload)
     ≫= fun spec => Ok (Tags spec ≫= (.!! "kubernetes.io/cluster/prod"))) =
    Ok (Some "owned") /\
  (payloadOf (prod []) (pool payload (Some 3) None) aws
     ≫= fun spec => Ok (spec !! "kubernetes.io/cluster/prod")) =
    Ok (Some "shared").
Proof. split; vm_compute; reflexivity. Qed.

End machinecontroller_facts.

(** * Further properties of the defaulting functions *)
Module defaulting_more.
Import v1beta1 defaulting host_vocabulary field_vocabulary more_samples.
Import defaulting_facts.

(** ** Hosts, one by one *)

Lemma controlPlaneHost_after i h :
  controlPlaneHost i h = host_after (Z.of_nat i) [masterTaint] h.
Proof. host_cases h; reflexivity. Qed.

Lemma staticWorkerHost_after n i h :
  staticWorkerHost n i h = host_after (Z.of_nat i + Z.of_nat n) [] h.
Proof. host_cases h; reflexivity. Qed.

Lemma Forall2_imap {A B} (R : A -> B -> Prop) (l : list A) :
  forall f : nat -> A -> B,
  (forall i x, R x (f i x)) -> Forall2 R l (imap f l).
Proof.
  induction l as [|x l IH]; intros f Hf; cbn; constructor; [apply Hf|].
  apply IH. intros i y. apply Hf.
Qed.

Lemma Forall2_same {A} (R : A -> A -> Prop) (l : list A) :
  (forall x, R x x) -> Forall2 R l l.
Proof. intros HR. induction l; constructor; auto. Qed.

Lemma set_IsLeader_same h : set_IsLeader (IsLeader h) h = h.
Proof. by destruct h. Qed.

(** Every host of a normalised cluster with a control plane comes from
    the host at its place by [host_after]; a control-plane host may also
    have got the leader flag. *)
Lemma hosts_pointwise (Rcp Rsw : HostConfig -> HostConfig -> Prop) obj :
  ControlPlane_Hosts obj <> [] ->
  (forall id h b, b = IsLeader h \/ b = true ->
     Rcp h (set_IsLeader b (host_after id [masterTaint] h))) ->
  (forall id h, Rsw h (host_after id [] h)) ->
  Forall2 Rcp (ControlPlane_Hosts obj)
    (ControlPlane_Hosts (SetDefaults_KubeOneCluster obj)) /\
  Forall2 Rsw (StaticWorkers_Hosts obj)
    (StaticWorkers_Hosts (SetDefaults_KubeOneCluster obj)).
Proof.
  intros Hne Hcp Hsw.
  rewrite ControlPlane_Hosts_after, StaticWorkers_Hosts_after.
  rewrite hosts_after_nonempty by done. cbn [fst snd]. split.
  - assert (Hall : Forall2 Rcp (ControlPlane_Hosts obj)
                     (imap controlPlaneHost (ControlPlane_Hosts obj))).
    { apply Forall2_imap. intros i h. rewrite controlPlaneHost_after.
      rewrite <- (set_IsLeader_same (host_after _ _ h)).
      apply Hcp. left. reflexivity. }
    destruct (existsb IsLeader (ControlPlane_Hosts obj)); [exact Hall|].
    destruct (ControlPlane_Hosts obj) as [|h cp]; [done|].
    cbn [imap promote] in *. inversion Hall as [|? ? ? ? _ Htl]; subst.
    constructor; [|exact Htl].
    rewrite controlPlaneHost_after. apply Hcp. by right.
  - apply Forall2_imap. intros i h. rewrite staticWorkerHost_after.
    apply Hsw.
Qed.

(** ** [defaults] and [defaulti] *)

Lemma defaults_set s d : s <> "" -> defaults s d = s.
Proof. by destruct s. Qed.

Lemma defaults_unset s d : s = "" -> defaults s d = d.
Proof. by intros ->. Qed.

Lemma defaults_nonempty s d : d <> "" -> defaults s d <> "".
Proof. by destruct s. Qed.

Lemma defaulti_set z d : z <> 0 -> defaulti z d = z.
Proof. unfold defaulti. intros Hz. by destruct (Z.eqb_spec z 0). Qed.

Lemma defaulti_unset z d : z = 0 -> defaulti z d = d.
Proof. by intros ->. Qed.

Lemma defaulti_nonzero z d : d <> 0 -> defaulti z d <> 0.
Proof. unfold defaulti. intros Hd. by destruct (Z.eqb_spec z 0). Qed.

Lemma is_empty_true s : is_empty s = true <-> s = "".
Proof. by destruct s. Qed.

Lemma Forall2_Forall_r {A B} (P : B -> Prop) (l : list A) (k : list B) :
  Forall2 (fun _ y => P y) l k -> Forall P k.
Proof. induction 1; constructor; auto. Qed.

(** ** What every host has after normalisation *)

Lemma complete_host_after b id defaultTaints h :
  complete (set_IsLeader b (host_after id defaultTaints h)).
Proof.
  unfold complete, host_after. cbn.
  split; [by apply defaulti_nonzero|].
  split; [by apply defaults_nonempty|].
  split; [by apply defaulti_nonzero|].
  split; [by apply defaults_nonempty, defaults_nonempty|].
  split; [|split; [done|]].
  - destruct (SSHPrivateKeyFile h); cbn; [right|by left].
    by apply defaults_nonempty.
  - by destruct (PublicAddress h), (PrivateAddress h).
Qed.

(** X1.  In a normalised cluster with a control plane no host lacks what a
    connection needs: SSH and bastion port and user are set, there is a
    private key file or an agent socket, the taint list is not nil, and
    the public and the private address are both set or both empty. *)
Theorem hosts_complete obj :
  ControlPlane_Hosts obj <> [] ->
  Forall complete
    (ControlPlane_Hosts (SetDefaults_KubeOneCluster obj) ++
     StaticWorkers_Hosts (SetDefaults_KubeOneCluster obj)).
Proof.
  intros Hne.
  destruct (hosts_pointwise (fun _ => complete) (fun _ => complete) obj Hne)
    as [Hcp Hsw].
  - intros. apply complete_host_after.
  - intros id h. rewrite <- (set_IsLeader_same (host_after _ _ h)).
    apply complete_host_after.
  - apply Forall_app. split; eapply Forall2_Forall_r; eassumption.
Qed.

Lemma hosts_complete_witness :
  Forall complete
    (ControlPlane_Hosts (SetDefaults_KubeOneCluster awsCluster) ++
     StaticWorkers_Hosts (SetDefaults_KubeOneCluster awsCluster)).
Proof. apply (hosts_complete awsCluster). discriminate. Defined.

Lemma keeps_host_after b id defaultTaints h :
  b = IsLeader h \/ b = true ->
  keeps_user_values h (set_IsLeader b (host_after id defaultTaints h)).
Proof.
  intros Hb. unfold keeps_user_values, host_after. cbn.
  repeat split.
  - by destruct (PublicAddress h).
  - by destruct (PrivateAddress h).
  - apply defaulti_set.
  - apply defaults_set.
  - intros Hs. destruct (SSHPrivateKeyFile h); cbn; [|done].
    by apply defaults_set.
  - apply defaulti_set.
  - apply defaults_set.
  - intros Hl. destruct Hb; congruence.
  - by intros taints ->.
Qed.

Lemma keeps_user_values_refl h : keeps_user_values h h.
Proof. unfold keeps_user_values. repeat split; auto. Qed.

Lemma hosts_keep obj :
  Forall2 keeps_user_values (ControlPlane_Hosts obj)
    (ControlPlane_Hosts (SetDefaults_KubeOneCluster obj)) /\
  Forall2 keeps_user_values (StaticWorkers_Hosts obj)
    (StaticWorkers_Hosts (SetDefaults_KubeOneCluster obj)).
Proof.
  destruct (ControlPlane_Hosts obj) as [|h0 cp] eqn:Hcp.
  - rewrite ControlPlane_Hosts_after, StaticWorkers_Hosts_after, Hcp.
    split; apply Forall2_same, keeps_user_values_refl.
  - rewrite <- Hcp. apply hosts_pointwise; [by rewrite Hcp| |].
    + intros. by apply keeps_host_after.
    + intros id h. rewrite <- (set_IsLeader_same (host_after _ _ h)).
      apply keeps_host_after. by left.
Qed.

(** X2.  Normalisation overwrites nothing the user set on a host: an
    address, port, user, key file, agent socket, leader flag or taint list
    that was given is the same afterwards, for the control-plane hosts and
    the static workers, place by place. *)
Theorem hosts_keep_user_values obj :
  Forall2 keeps_user_values (ControlPlane_Hosts obj)
    (ControlPlane_Hosts (SetDefaults_KubeOneCluster obj)) /\
  Forall2 keeps_user_values (StaticWorkers_Hosts obj)
    (StaticWorkers_Hosts (SetDefaults_KubeOneCluster obj)).
Proof. apply hosts_keep. Qed.

Lemma fills_host_after b id defaultTaints h :
  fills_gaps h (set_IsLeader b (host_after id defaultTaints h)).
Proof.
  unfold fills_gaps, host_after. cbn. repeat split.
  - by intros ->.
  - by intros ->.
  - apply defaulti_unset.
  - apply defaults_unset.
  - by intros -> ->.
  - intros Hk. by destruct (SSHPrivateKeyFile h).
  - apply defaulti_unset.
  - apply defaults_unset.
Qed.

(** X3.  Where the user left a host open, a normalised cluster with a
    control plane has the documented default: an empty address is copied
    from the other one, the ports are 22, the user is root, the bastion
    user is the SSH user, and the agent socket is [env:SSH_AUTH_SOCK] when
    neither a key file nor a socket was given; with a key file the socket
    is left as it was. *)
Theorem hosts_fill_gaps obj :
  ControlPlane_Hosts obj <> [] ->
  Forall2 fills_gaps (ControlPlane_Hosts obj)
    (ControlPlane_Hosts (SetDefaults_KubeOneCluster obj)) /\
  Forall2 fills_gaps (StaticWorkers_Hosts obj)
    (StaticWorkers_Hosts (SetDefaults_KubeOneCluster obj)).
Proof.
  intros Hne. apply hosts_pointwise; [done| |].
  - intros. apply fills_host_after.
  - intros id h. rewrite <- (set_IsLeader_same (host_after _ _ h)).
    apply fills_host_after.
Qed.

Lemma hosts_fill_gaps_witness :
  Forall2 fills_gaps (ControlPlane_Hosts awsCluster)
    (ControlPlane_Hosts (SetDefaults_KubeOneCluster awsCluster)).
Proof. apply (hosts_fill_gaps awsCluster). discriminate. Defined.

(** X4.  In a normalised cluster with a control plane, a control-plane
    host that came without taints has the one taint
    [node-role.kubernetes.io/master] with effect [NoSchedule], and a static
    worker that came without taints has the empty list. *)
Theorem taints_by_role obj :
  ControlPlane_Hosts obj <> [] ->
  Forall2
    (fun h h' =>
       Taints h = None ->
       Taints h' =
       Some [mkTaint "node-role.kubernetes.io/master" "" "NoSchedule"])
    (ControlPlane_Hosts obj)
    (ControlPlane_Hosts (SetDefaults_KubeOneCluster obj)) /\
  Forall2 (fun h h' => Taints h = None -> Taints h' = Some [])
    (StaticWorkers_Hosts obj)
    (StaticWorkers_Hosts (SetDefaults_KubeOneCluster obj)).
Proof.
  intros Hne. apply hosts_pointwise; [done| |].
  - intros id h b _ Hnil. cbn. by rewrite Hnil.
  - intros id h Hnil. cbn. by rewrite Hnil.
Qed.

Lemma taints_by_role_witness :
  Forall2 (fun h h' => Taints h = None -> Taints h' = Some [])
    (StaticWorkers_Hosts awsCluster)
    (StaticWorkers_Hosts (SetDefaults_KubeOneCluster awsCluster)).
Proof. apply (taints_by_role awsCluster). discriminate. Defined.

(** ** The API endpoint *)

Lemma defaults_defaulted d old : defaulted_to d old (defaults old d).
Proof. split; [apply defaults_set|apply defaults_unset]. Qed.

Lemma defaulti_defaulted d old : defaulted_to_i d old (defaulti old d).
Proof. split; [apply defaulti_set|apply defaulti_unset]. Qed.

Lemma first_host_after h0 cp sw :
  exists b rest,
    fst (hosts_after (h0 :: cp) sw) =
    set_IsLeader b (host_after 0 [masterTaint] h0) :: rest.
Proof.
  rewrite hosts_after_nonempty by done. cbn [fst imap].
  rewrite controlPlaneHost_after.
  destruct (existsb _ _); cbn [promote].
  - exists (IsLeader h0). eexists. reflexivity.
  - by exists true; eexists.
Qed.

(** X5.  The API endpoint after normalisation: a host that was given is
    kept; a missing host is the public address of the first control-plane
    host, or its private address when it has no public one; the port is
    6443 unless given.  With neither a host nor a control plane the
    endpoint is left as it is, the port included. *)
Theorem api_endpoint_defaulting obj :
  let ep := APIEndpoint_ obj in
  let ep' := APIEndpoint_ (SetDefaults_KubeOneCluster obj) in
  (Host ep <> "" ->
   Host ep' = Host ep /\ defaulted_to_i 6443 (Port ep) (Port ep')) /\
  (forall h0 rest,
     Host ep = "" -> ControlPlane_Hosts obj = h0 :: rest ->
     Host ep' = (if is_empty (PublicAddress h0) then PrivateAddress h0
                 else PublicAddress h0) /\
     defaulted_to_i 6443 (Port ep) (Port ep')) /\
  (Host ep = "" -> ControlPlane_Hosts obj = [] -> ep' = ep).
Proof.
  intros ep ep'. subst ep ep'.
  rewrite SetDefaults_KubeOneCluster_normal_form. cbn [normal_form APIEndpoint_].
  destruct (APIEndpoint_ obj) as [host port]. cbn [Host Port].
  unfold endpoint_after, SetDefaults_APIEndpoints. cbn.
  split; [|split].
  - intros Hhost. destruct host; [done|]. cbn.
    split; [done|apply defaulti_defaulted].
  - intros h0 rest -> ->.
    destruct (first_host_after h0 rest (StaticWorkers_Hosts obj))
      as (b & tl & ->).
    cbn. split; [done|apply defaulti_defaulted].
  - intros -> ->. reflexivity.
Qed.

Lemma api_endpoint_defaulting_witness :
  Host (APIEndpoint_ (SetDefaults_KubeOneCluster privateCluster)) =
    "192.168.0.1" /\
  Port (APIEndpoint_ (SetDefaults_KubeOneCluster privateCluster)) = 6443.
Proof.
  destruct (api_endpoint_defaulting privateCluster) as (_ & Hfirst & _).
  destruct (Hfirst (privateHost "192.168.0.1") [privateHost "192.168.0.2"])
    as [Hhost [_ Hport]]; [reflexivity..|].
  split; [exact Hhost|]. apply Hport. reflexivity.
Defined.

(** ** The container runtime *)

(** X6.  Normalisation never selects Docker and never changes a runtime
    the user chose; a version that does not parse leaves the runtime as it
    is; and with no runtime chosen, containerd is selected exactly when the
    version, one leading [v] stripped, parses and is at least 1.22. *)
Theorem container_runtime_selection obj :
  let cr := ContainerRuntime obj in
  let cr' := ContainerRuntime (SetDefaults_KubeOneCluster obj) in
  let version := strings_TrimPrefix_v (Versions_Kubernetes obj) in
  Docker cr' = Docker cr /\
  (Docker cr <> None \/ Containerd cr <> None -> cr' = cr) /\
  (semver.NewVersion version = None -> cr' = cr) /\
  (Docker cr = None -> Containerd cr = None ->
   (Containerd cr' = Some tt <->
    exists v, semver.NewVersion version = Some v /\
              semver.Check_gte_1_22 v = true)).
Proof.
  intros cr cr' version. subst cr cr' version.
  rewrite SetDefaults_KubeOneCluster_normal_form.
  cbn [normal_form ContainerRuntime].
  destruct (ContainerRuntime obj) as [docker containerd].
  unfold runtime_after, SetDefaults_ContainerRuntime.
  cbn -[semver.NewVersion semver.Check_gte_1_22].
  destruct docker as [[]|], containerd as [[]|];
    cbn -[semver.NewVersion semver.Check_gte_1_22];
    try (repeat split; intros; congruence).
  destruct (semver.NewVersion _) as [v|];
    cbn -[semver.NewVersion semver.Check_gte_1_22].
  - destruct (semver.Check_gte_1_22 v) eqn:Hcheck;
      cbn -[semver.NewVersion semver.Check_gte_1_22].
    + repeat split; try done.
      * intros [?|?]; congruence.
      * intros _. by exists v.
    + repeat split; try done.
      intros (v' & Hv' & Hcheck'). congruence.
  - repeat split; try done. intros (v' & Hv' & _). congruence.
Qed.

Lemma container_runtime_selection_witness :
  Containerd (ContainerRuntime (SetDefaults_KubeOneCluster awsCluster)) =
  Some tt.
Proof.
  destruct (container_runtime_selection awsCluster) as (_ & _ & _ & Hsel).
  apply Hsel; [reflexivity..|].
  exists (semver.mkVersion 1 23 0 "" ""). split; vm_compute; reflexivity.
Defined.

(** ** The cluster network *)

Lemma ClusterNetwork_after obj :
  ClusterNetwork (SetDefaults_KubeOneCluster obj) =
  ClusterNetwork
    (SetDefaults_ClusterNetwork
       (set_ClusterNetwork (ClusterNetwork obj) zeroCluster)).
Proof.
  rewrite SetDefaults_KubeOneCluster_normal_form.
  cbn [normal_form ClusterNetwork]. apply network_after_eq.
Qed.

(** X7.  After normalisation the pod subnet, the service subnet, the
    service domain and the node-port range are what the user gave, and
    [10.244.0.0/16], [10.96.0.0/12], [cluster.local] and [30000-32767]
    where nothing was given; and there is a CNI block. *)
Theorem network_defaulting obj :
  let cn := ClusterNetwork obj in
  let cn' := ClusterNetwork (SetDefaults_KubeOneCluster obj) in
  defaulted_to "10.244.0.0/16" (PodSubnet cn) (PodSubnet cn') /\
  defaulted_to "10.96.0.0/12" (ServiceSubnet cn) (ServiceSubnet cn') /\
  defaulted_to "cluster.local" (ServiceDomainName cn) (ServiceDomainName cn')
  /\
  defaulted_to "30000-32767" (NodePortRange cn) (NodePortRange cn') /\
  CNI_ cn' <> None.
Proof.
  intros cn cn'. subst cn cn'. rewrite ClusterNetwork_after.
  destruct (ClusterNetwork obj) as [pod svc dns ports cni].
  unfold SetDefaults_ClusterNetwork.
  cbn [ClusterNetwork set_ClusterNetwork PodSubnet ServiceSubnet
       ServiceDomainName NodePortRange CNI_].
  repeat split; try apply defaults_defaulted; done.
Qed.

(** X8.  The CNI choice of the user stands: normalisation adds no Canal
    block and no Cilium block to a CNI block that lacks it, keeps a Canal
    MTU and a Cilium kube-proxy replacement that are set, and fills an
    unset kube-proxy replacement with [disabled].  Only a cluster without
    a CNI block gets one, with Canal alone. *)
Theorem cni_choice_stands obj :
  let cni := CNI_ (ClusterNetwork obj) in
  let cni' := CNI_ (ClusterNetwork (SetDefaults_KubeOneCluster obj)) in
  (cni = None ->
   cni' = Some (mkCNI (Some (defaultCanal (CloudProvider obj))) None)) /\
  (forall c, cni = Some c ->
     exists c', cni' = Some c' /\
       (Canal c = None <-> Canal c' = None) /\
       (forall k, Canal c = Some k -> MTU k <> 0 -> Canal c' = Some k) /\
       (Cilium c = None <-> Cilium c' = None) /\
       (forall ci, Cilium c = Some ci ->
          exists ci', Cilium c' = Some ci' /\
            defaulted_to "disabled" (KubeProxyReplacement ci)
              (KubeProxyReplacement ci'))).
Proof.
  intros cni cni'. subst cni cni'. rewrite ClusterNetwork_after.
  rewrite defaultCanal_eq.
  destruct (ClusterNetwork obj) as [pod svc dns ports cni].
  unfold SetDefaults_ClusterNetwork.
  cbn [ClusterNetwork set_ClusterNetwork CNI_ CloudProvider zeroCluster].
  rewrite defaultCanal_eq. split.
  - intros ->. reflexivity.
  - intros c ->. destruct c as [canal cilium]. eexists. split; [reflexivity|].
    destruct canal as [[mtu]|], cilium as [[kpr]|]; cbn;
      try destruct (Z.eqb_spec mtu 0); try destruct kpr; cbn;
      repeat split; intros; simplify_eq; try done;
      try (eexists; split; [reflexivity|]; split; intros; done).
Qed.

Lemma cni_choice_stands_witness :
  exists c',
    CNI_ (ClusterNetwork (SetDefaults_KubeOneCluster ciliumCluster)) =
      Some c' /\
    Canal c' = None.
Proof.
  destruct (cni_choice_stands ciliumCluster) as [_ Hsome].
  destruct (Hsome (mkCNI None (Some (mkCiliumSpec ""))) eq_refl)
    as (c' & Hc' & Hcanal & _).
  exists c'. split; [exact Hc'|]. by apply Hcanal.
Defined.

(** ** The proxy *)

(** X9.  Without an HTTP and an HTTPS proxy the proxy settings are left
    alone.  With one, the two proxies stay and the no-proxy value becomes
    the comma-joined list of [127.0.0.1/8,localhost], the service domain,
    the pod subnet and the service subnet as normalisation leaves them
    (so none of them is empty), followed by the no-proxy value of the user
    when there is one. *)
Theorem no_proxy_list obj :
  let px := Proxy obj in
  let px' := Proxy (SetDefaults_KubeOneCluster obj) in
  let cn' := ClusterNetwork (SetDefaults_KubeOneCluster obj) in
  (HTTP px = "" -> HTTPS px = "" -> px' = px) /\
  (HTTP px <> "" \/ HTTPS px <> "" ->
   HTTP px' = HTTP px /\ HTTPS px' = HTTPS px /\
   NoProxy px' =
     strings_Join
       ([ "127.0.0.1/8,localhost"; ServiceDomainName cn'; PodSubnet cn';
          ServiceSubnet cn' ] ++
        (if is_empty (NoProxy px) then [] else [NoProxy px])) "," /\
   ServiceDomainName cn' <> "" /\ PodSubnet cn' <> "" /\
   ServiceSubnet cn' <> "").
Proof.
  intros px px' cn'. subst px px' cn'.
  rewrite SetDefaults_KubeOneCluster_normal_form.
  cbn [normal_form Proxy ClusterNetwork].
  split; [apply proxy_after_unset|].
  intros Hproxy.
  set (cn' := network_after (CloudProvider obj) (ClusterNetwork obj)).
  assert (Hne : ServiceDomainName cn' <> "" /\ PodSubnet cn' <> "" /\
                ServiceSubnet cn' <> "").
  { subst cn'. rewrite network_after_eq.
    destruct (ClusterNetwork obj) as [pod svc dns ports cni].
    unfold SetDefaults_ClusterNetwork.
    cbn [ClusterNetwork set_ClusterNetwork PodSubnet ServiceSubnet
         ServiceDomainName].
    repeat split; by apply defaults_nonempty. }
  destruct (Proxy obj) as [http https noproxy].
  unfold proxy_after, SetDefaults_Proxy. cbn -[strings_Join] in *.
  destruct http, https; cbn -[strings_Join];
    try (destruct Hproxy; congruence);
    (split; [done|]; split; [done|]; split; [|exact Hne]);
    by destruct noproxy.
Qed.

Lemma no_proxy_list_witness :
  NoProxy (Proxy (SetDefaults_KubeOneCluster proxiedCluster)) =
  "127.0.0.1/8,localhost,cluster.local,10.244.0.0/16,10.96.0.0/12".
Proof.
  destruct (no_proxy_list proxiedCluster) as [_ Hset].
  destruct Hset as (_ & _ & Hlist & _); [left; discriminate|].
  rewrite Hlist. vm_compute. reflexivity.
Defined.

(** ** Registry, features and addons *)

(** X10.  Without a registry override (no registry configuration, or an
    empty [OverwriteRegistry]) the asset configuration is left alone.
    With one, each of the four image repositories (Kubernetes, CoreDNS,
    etcd, metrics-server) is the override where it was empty and the
    user's repository where it was set. *)
Theorem registry_override obj :
  let ac := AssetConfiguration obj in
  let ac' := AssetConfiguration (SetDefaults_KubeOneCluster obj) in
  (RegistryConfiguration obj = None -> ac' = ac) /\
  (forall rc, RegistryConfiguration obj = Some rc ->
     (OverwriteRegistry rc = "" -> ac' = ac) /\
     (OverwriteRegistry rc <> "" ->
      let r := OverwriteRegistry rc in
      defaulted_to r (Kubernetes_ImageRepository ac)
        (Kubernetes_ImageRepository ac') /\
      defaulted_to r (CoreDNS_ImageRepository ac)
        (CoreDNS_ImageRepository ac') /\
      defaulted_to r (Etcd_ImageRepository ac) (Etcd_ImageRepository ac') /\
      defaulted_to r (MetricsServer_ImageRepository ac)
        (MetricsServer_ImageRepository ac'))).
Proof.
  intros ac ac'. subst ac ac'.
  rewrite SetDefaults_KubeOneCluster_normal_form.
  cbn [normal_form AssetConfiguration].
  unfold assets_after, SetDefaults_AssetConfiguration.
  cbn [RegistryConfiguration AssetConfiguration set_AssetConfiguration
       set_RegistryConfiguration zeroCluster].
  split; [by intros ->|].
  intros [reg] ->. cbn [OverwriteRegistry]. split.
  - by intros ->.
  - intros Hreg. destruct reg as [|a reg]; [done|].
    cbn [is_empty AssetConfiguration Kubernetes_ImageRepository
         CoreDNS_ImageRepository Etcd_ImageRepository
         MetricsServer_ImageRepository].
    repeat split; apply defaults_defaulted.
Qed.

Lemma registry_override_witness :
  AssetConfiguration (SetDefaults_KubeOneCluster mirroredCluster) =
  mkAssetConfiguration "mirror.example" "registry.example/coredns"
    "mirror.example" "mirror.example".
Proof.
  destruct (registry_override mirroredCluster) as [_ Hsome].
  destruct (Hsome (mkRegistryConfiguration "mirror.example") eq_refl)
    as [_ Hset].
  destruct Hset as ([_ Hk] & [Hc _] & [_ He] & [_ Hm]); [discriminate|].
  specialize (Hk eq_refl). specialize (Hc ltac:(discriminate)).
  specialize (He eq_refl). specialize (Hm eq_refl).
  destruct (AssetConfiguration (SetDefaults_KubeOneCluster mirroredCluster)).
  cbn in *. by subst.
Defined.

(** X11.  The machine controller, the repository configuration of the
    system packages and the metrics server are switched on when the user
    said nothing about them, and left exactly as given otherwise: a
    feature the user switched off stays off. *)
Theorem switches_honoured obj :
  let obj' := SetDefaults_KubeOneCluster obj in
  MachineController obj' =
    Some (default (mkMachineControllerConfig true) (MachineController obj)) /\
  SystemPackages obj' =
    Some (default (mkSystemPackages true) (SystemPackages obj)) /\
  MetricsServer (Features obj') =
    Some (default (mkMetricsServer true) (MetricsServer (Features obj))).
Proof.
  intros obj'. subst obj'. rewrite SetDefaults_KubeOneCluster_normal_form.
  cbn [normal_form MachineController SystemPackages Features].
  split; [by destruct (MachineController obj)|].
  split; [by destruct (SystemPackages obj)|].
  destruct (Features obj) as [ms sal oidc]. by destruct ms.
Qed.

(** X12.  The audit log, OpenID Connect and the addons are configured
    only when they are there and enabled: then the empty settings get
    their defaults (log path [/var/log/kubernetes/audit.log], 30 days, 3
    backups, 100 MB; client [kubernetes], claims [sub] and [groups],
    prefixes [oidc:], algorithm [RS256]; addons path [./addons]) and the
    given ones stay.  Absent or disabled, they are left untouched. *)
Theorem enabled_features_configured obj :
  let f := Features obj in
  let obj' := SetDefaults_KubeOneCluster obj in
  (forall a, StaticAuditLog f = Some a ->
     exists a', StaticAuditLog (Features obj') = Some a' /\
       (StaticAuditLog_Enable a = false -> a' = a) /\
       (StaticAuditLog_Enable a = true ->
        let c := StaticAuditLog_Config a in
        let c' := StaticAuditLog_Config a' in
        StaticAuditLog_Enable a' = true /\
        defaulted_to "/var/log/kubernetes/audit.log" (LogPath c) (LogPath c')
        /\
        defaulted_to_i 30 (LogMaxAge c) (LogMaxAge c') /\
        defaulted_to_i 3 (LogMaxBackup c) (LogMaxBackup c') /\
        defaulted_to_i 100 (LogMaxSize c) (LogMaxSize c'))) /\
  (forall o, OpenIDConnect f = Some o ->
     exists o', OpenIDConnect (Features obj') = Some o' /\
       (OpenIDConnect_Enable o = false -> o' = o) /\
       (OpenIDConnect_Enable o = true ->
        let c := OpenIDConnect_Config o in
        let c' := OpenIDConnect_Config o' in
        OpenIDConnect_Enable o' = true /\
        defaulted_to "kubernetes" (ClientID c) (ClientID c') /\
        defaulted_to "sub" (UsernameClaim c) (UsernameClaim c') /\
        defaulted_to "oidc:" (UsernamePrefix c) (UsernamePrefix c') /\
        defaulted_to "groups" (GroupsClaim c) (GroupsClaim c') /\
        defaulted_to "oidc:" (GroupsPrefix c) (GroupsPrefix c') /\
        defaulted_to "RS256" (SigningAlgs c) (SigningAlgs c'))) /\
  (StaticAuditLog f = None -> StaticAuditLog (Features obj') = None) /\
  (OpenIDConnect f = None -> OpenIDConnect (Features obj') = None) /\
  (forall a, Addons obj = Some a ->
     exists a', Addons obj' = Some a' /\
       (Addons_Enable a = false -> a' = a) /\
       (Addons_Enable a = true ->
        Addons_Enable a' = true /\
        defaulted_to "./addons" (Addons_Path a) (Addons_Path a'))) /\
  (Addons obj = None -> Addons obj' = None).
Proof.
  intros f obj'. subst f obj'. rewrite SetDefaults_KubeOneCluster_normal_form.
  cbn [normal_form Features Addons].
  unfold features_after, SetDefaults_Features, addons_after,
    SetDefaults_Addons.
  cbn [Features set_Features zeroCluster Addons set_Addons StaticAuditLog
       OpenIDConnect MetricsServer].
  destruct (Features obj) as [ms sal oidc].
  cbn [StaticAuditLog OpenIDConnect MetricsServer].
  split; [|split; [|split; [by intros ->|split; [by intros ->|split]]]].
  - intros [enable c] ->. destruct enable; eexists; (split; [reflexivity|]);
      cbn; (split; [done|]); [|done].
    intros _. split; [done|].
    repeat split; first [apply defaults_defaulted|apply defaulti_defaulted].
  - intros [enable c] ->. destruct enable; eexists; (split; [reflexivity|]);
      cbn; (split; [done|]); [|done].
    intros _. split; [done|]. repeat split; apply defaults_defaulted.
  - intros [enable path] ->. destruct enable; eexists;
      (split; [reflexivity|]); cbn; (split; [done|]); [|done].
    intros _. split; [done|]. apply defaults_defaulted.
  - by intros ->.
Qed.

Lemma enabled_features_configured_witness :
  exists a',
    StaticAuditLog (Features (SetDefaults_KubeOneCluster auditedCluster)) =
      Some a' /\
    LogMaxAge (StaticAuditLog_Config a') = 30 /\
    LogMaxBackup (StaticAuditLog_Config a') = 7.
Proof.
  destruct (enabled_features_configured auditedCluster) as (Haudit & _).
  destruct (Haudit (mkStaticAuditLog true (mkStaticAuditLogConfig "" 0 7 0))
              eq_refl) as (a' & Ha' & _ & Hon).
  destruct (Hon eq_refl) as (_ & _ & [_ Hage] & [Hbackup _] & _).
  exists a'. split; [exact Ha'|]. split; [by apply Hage|].
  by apply Hbackup.
Defined.

(** ** What normalisation leaves alone *)

(** X13.  Normalisation never changes the cloud provider, the registry
    configuration or the private key file of a host, and adds or drops no
    host; and a cluster without control-plane hosts keeps its host lists
    as they are, static workers included. *)
Theorem untouched_fields obj :
  let obj' := SetDefaults_KubeOneCluster obj in
  CloudProvider obj' = CloudProvider obj /\
  RegistryConfiguration obj' = RegistryConfiguration obj /\
  map SSHPrivateKeyFile (ControlPlane_Hosts obj' ++ StaticWorkers_Hosts obj') =
    map SSHPrivateKeyFile (ControlPlane_Hosts obj ++ StaticWorkers_Hosts obj)
  /\
  (ControlPlane_Hosts obj = [] ->
   ControlPlane_Hosts obj' = [] /\
   StaticWorkers_Hosts obj' = StaticWorkers_Hosts obj).
Proof.
  intros obj'. subst obj'.
  split; [by rewrite SetDefaults_KubeOneCluster_normal_form|].
  split; [by rewrite SetDefaults_KubeOneCluster_normal_form|].
  split.
  - destruct (hosts_keep obj) as [Hcp Hsw].
    rewrite !map_app. f_equal.
    + induction Hcp as [|h h' l l' Hk _ IH]; [done|]. cbn. f_equal; [|done].
      apply Hk.
    + induction Hsw as [|h h' l l' Hk _ IH]; [done|]. cbn. f_equal; [|done].
      apply Hk.
  - intros Hcp. rewrite ControlPlane_Hosts_after, StaticWorkers_Hosts_after.
    by rewrite Hcp.
Qed.

Lemma untouched_fields_witness :
  StaticWorkers_Hosts (SetDefaults_KubeOneCluster workersOnlyCluster) =
  StaticWorkers_Hosts workersOnlyCluster.
Proof. apply (untouched_fields workersOnlyCluster). reflexivity. Defined.

(** ** Leader flags *)

Lemma map_IsLeader_staticWorkers n (sw : list HostConfig) :
  map IsLeader (imap (staticWorkerHost n) sw) = map IsLeader sw.
Proof.
  apply list_eq. intros i.
  change (map IsLeader) with (fmap (M:=list) IsLeader).
  rewrite !list_lookup_fmap, list_lookup_imap.
  destruct (sw !! i); simpl; [|done].
  by rewrite staticWorkerHost_after.
Qed.

(** X14.  Normalisation changes at most one leader flag: the flags of the
    static workers and of every control-plane host but the first are what
    they were, and the first control-plane host is leader afterwards
    exactly when it was before or no control-plane host was. *)
Theorem leader_flags obj :
  let obj' := SetDefaults_KubeOneCluster obj in
  map IsLeader (StaticWorkers_Hosts obj') =
    map IsLeader (StaticWorkers_Hosts obj) /\
  map IsLeader (tail (ControlPlane_Hosts obj')) =
    map IsLeader (tail (ControlPlane_Hosts obj)) /\
  (forall h0 rest,
     ControlPlane_Hosts obj = h0 :: rest ->
     exists h0',
       head (ControlPlane_Hosts obj') = Some h0' /\
       (IsLeader h0' = true <->
        IsLeader h0 = true \/ leaders (ControlPlane_Hosts obj) = 0%nat)).
Proof.
  intros obj'. subst obj'.
  rewrite ControlPlane_Hosts_after, StaticWorkers_Hosts_after.
  destruct (ControlPlane_Hosts obj) as [|h0 cp] eqn:Hcp.
  { cbn. repeat split. intros ? ? [=]. }
  rewrite hosts_after_nonempty by done. cbn [fst snd].
  split; [apply map_IsLeader_staticWorkers|].
  pose proof (map_IsLeader_controlPlane (h0 :: cp)) as Hflags.
  cbn [imap map] in Hflags. injection Hflags as Hhead Htail.
  destruct (existsb IsLeader (h0 :: cp)) eqn:Hex.
  - cbn [imap tail head]. split; [exact Htail|].
    intros h0_ rest [= <- <-]. eexists. split; [reflexivity|].
    rewrite Hhead. split; [by left|]. intros [Hl|Hzero]; [done|].
    apply leaders_zero in Hzero. congruence.
  - cbn [imap promote tail head]. split; [exact Htail|].
    intros h0_ rest [= <- <-]. eexists. split; [reflexivity|].
    split; [intros _; right; by apply leaders_zero|intros _; reflexivity].
Qed.

Lemma leader_flags_witness :
  exists h0',
    head (ControlPlane_Hosts (SetDefaults_KubeOneCluster twoLeadersCluster))
      = Some h0' /\
    IsLeader h0' = true.
Proof.
  destruct (leader_flags twoLeadersCluster) as (_ & _ & Hfirst).
  destruct (Hfirst (set_IsLeader true (host "10.0.0.1"))
              [set_IsLeader true (host "10.0.0.2")] eq_refl)
    as (h0' & Hhead & Hleader).
  exists h0'. split; [exact Hhead|]. apply Hleader. by left.
Defined.

End defaulting_more.

(** * Further properties of [certificate] *)
Module certificate_more.
Import certificate.

Section CAKeyPair.

Variable KubernetesCACertPath KubernetesCAKeyPath : string.
Variable ParseCertsPEM : bytes -> result (list Certificate).
Variable ParsePrivateKeyPEM : bytes -> result PrivateKey.

Local Abbreviation CAKeyPair :=
  (certificate.CAKeyPair KubernetesCACertPath KubernetesCAKeyPath
     ParseCertsPEM ParsePrivateKeyPEM).

(** X15.  What [CAKeyPair] returns is an RSA key parsed from the key entry
    together with the first certificate parsed from the certificate
    entry: it returns nothing unless both entries are there and parse, and
    never a key of another kind. *)
Theorem CAKeyPair_success (KubernetesPKI : gmap string bytes) key cert :
  CAKeyPair KubernetesPKI = Ok (key, cert) ->
  exists caCert caKey certs,
    KubernetesPKI !! KubernetesCACertPath = Some caCert /\
    KubernetesPKI !! KubernetesCAKeyPath = Some caKey /\
    ParseCertsPEM caCert = Ok (cert :: certs) /\
    ParsePrivateKeyPEM caKey = Ok key /\
    Algorithm key = RSA.
Proof.
  unfold certificate.CAKeyPair.
  destruct (KubernetesPKI !! KubernetesCACertPath) as [caCert|]; [|done].
  destruct (KubernetesPKI !! KubernetesCAKeyPath) as [caKey|]; [|done].
  destruct (ParseCertsPEM caCert) as [[|cert0 certs]| |] eqn:Hcerts;
    cbn; try done.
  destruct (ParsePrivateKeyPEM caKey) as [possibleKey| |] eqn:Hkey;
    cbn; try done.
  destruct (Algorithm possibleKey) eqn:Halg; [|done].
  intros [= -> ->]. by exists caCert, caKey, certs.
Qed.

End CAKeyPair.

Section NewSignedTLSCert.

Variable TLSCertName TLSKeyName KubernetesCACertName : string.
Variable newPrivateKey : result PrivateKey.
Variable newSignedCert :
  Config -> PrivateKey -> Certificate -> PrivateKey -> result Certificate.
Variable encodeCertPEM : Certificate -> bytes.
Variable encodePrivateKeyPEM : PrivateKey -> bytes.

Local Abbreviation NewSignedTLSCert :=
  (certificate.NewSignedTLSCert TLSCertName TLSKeyName KubernetesCACertName
     newPrivateKey newSignedCert encodeCertPEM encodePrivateKeyPEM).

(** X16.  [NewSignedTLSCert] fails exactly when drawing the key fails or
    signing fails: a key error comes back wrapped as "failed to generate
    private key" whatever the signer would do, a signing error wrapped as
    "failed to generate certificate", and a bundle is returned only when
    both steps succeeded, the signer having been given the fresh key, the
    CA certificate and the CA key. *)
Theorem NewSignedTLSCert_failures name namespace domain caKey caCert :
  (forall e, newPrivateKey = Err e ->
     NewSignedTLSCert name namespace domain caKey caCert =
     Err (errors_Wrap e "failed to generate private key")) /\
  (forall key e,
     newPrivateKey = Ok key ->
     newSignedCert (certCfg name namespace domain) key caCert caKey = Err e ->
     NewSignedTLSCert name namespace domain caKey caCert =
     Err (errors_Wrap e "failed to generate certificate")) /\
  (forall bundle,
     NewSignedTLSCert name namespace domain caKey caCert = Ok bundle ->
     exists key cert,
       newPrivateKey = Ok key /\
       newSignedCert (certCfg name namespace domain) key caCert caKey =
       Ok cert).
Proof.
  unfold certificate.NewSignedTLSCert. split; [|split].
  - by intros e ->.
  - intros key e -> Hsign. cbn. by rewrite Hsign.
  - intros bundle. destruct newPrivateKey as [key| |]; cbn; try done.
    destruct (newSignedCert _ key caCert caKey) as [cert| |] eqn:Hsign;
      cbn; try done.
    intros _. by exists key, cert.
Qed.

(** X17.  When the three entry names differ, the bundle that
    [NewSignedTLSCert] returns has exactly three entries: the PEM text of
    the new certificate, the PEM text of the fresh key, and the PEM text of
    the CA certificate that was passed in. *)
Theorem NewSignedTLSCert_bundle name namespace domain caKey caCert key cert :
  TLSCertName <> TLSKeyName ->
  TLSCertName <> KubernetesCACertName ->
  TLSKeyName <> KubernetesCACertName ->
  newPrivateKey = Ok key ->
  newSignedCert (certCfg name namespace domain) key caCert caKey = Ok cert ->
  exists bundle : gmap string string,
    NewSignedTLSCert name namespace domain caKey caCert = Ok bundle /\
    bundle !! TLSCertName = Some (string_of_list_byte (encodeCertPEM cert)) /\
    bundle !! TLSKeyName =
      Some (string_of_list_byte (encodePrivateKeyPEM key)) /\
    bundle !! KubernetesCACertName =
      Some (string_of_list_byte (encodeCertPEM caCert)) /\
    dom bundle = {[TLSCertName; TLSKeyName; KubernetesCACertName]}.
Proof.
  intros Hck Hcc Hkc Hkey Hsign. unfold certificate.NewSignedTLSCert.
  rewrite Hkey. cbn. rewrite Hsign. cbn. eexists. split; [reflexivity|].
  split; [by simplify_map_eq|]. split; [by simplify_map_eq|].
  split; [by simplify_map_eq|].
  rewrite !dom_insert_L, dom_empty_L. apply set_eq. intros x.
  rewrite !elem_of_union, !elem_of_singleton, elem_of_empty. tauto.
Qed.

End NewSignedTLSCert.

Section GetCertificateSANs.

Variable strings_ToLower : string -> string.

Lemma GetCertificateSANs_loop (names : list string) : forall certSANS,
  fold_left
    (fun certSANS name => (certSANS ++ [strings_ToLower name])%list)
    names certSANS =
  (certSANS ++ map strings_ToLower names)%list.
Proof.
  induction names as [|name names IH]; intros certSANS; cbn.
  - by rewrite app_nil_r.
  - by rewrite IH, <- app_assoc.
Qed.

(** X18.  [GetCertificateSANs] returns the lower-cased host followed by
    the lower-cased alternative names in the order given: one name per
    input, the host first, nothing merged or dropped. *)
Theorem GetCertificateSANs_names host (alternativeNames : list string) :
  GetCertificateSANs strings_ToLower host alternativeNames =
    strings_ToLower host :: map strings_ToLower alternativeNames /\
  length (GetCertificateSANs strings_ToLower host alternativeNames) =
    S (length alternativeNames).
Proof.
  unfold GetCertificateSANs. rewrite GetCertificateSANs_loop. cbn.
  split; [reflexivity|]. by rewrite length_map.
Qed.

End GetCertificateSANs.

Import certificate_samples.

Lemma CAKeyPair_success_witness :
  exists caCert' caKey' certs,
    pki [(caCertPath, "one certificate"); (caKeyPath, "rsa key")]
      !! caCertPath = Some caCert' /\
    pki [(caCertPath, "one certificate"); (caKeyPath, "rsa key")]
      !! caKeyPath = Some caKey' /\
    parseCerts caCert' = Ok (caCert :: certs) /\
    parseKey caKey' = Ok caKey /\
    Algorithm caKey = RSA.
Proof.
  apply (CAKeyPair_success caCertPath caKeyPath parseCerts parseKey).
  reflexivity.
Defined.

Lemma NewSignedTLSCert_failures_witness :
  NewSignedTLSCert "cert.pem" "key.pem" "ca.pem"
    (Err (library_error "no entropy")) newSignedCert_model printCert printKey
    "metrics-server" "kube-system" "cluster.local" caKey caCert =
  Err (errors_Wrap (library_error "no entropy")
         "failed to generate private key").
Proof.
  apply (NewSignedTLSCert_failures "cert.pem" "key.pem" "ca.pem"
           (Err (library_error "no entropy")) newSignedCert_model
           printCert printKey).
  reflexivity.
Defined.

Lemma NewSignedTLSCert_bundle_witness :
  exists bundle : gmap string string,
    issue "metrics-server" "kube-system" "cluster.local" = Ok bundle /\
    dom bundle = {["cert.pem"; "key.pem"; "ca.pem"]}.
Proof.
  destruct (NewSignedTLSCert_bundle "cert.pem" "key.pem" "ca.pem"
              (Ok leafKey) newSignedCert_model printCert printKey
              "metrics-server" "kube-system" "cluster.local"
              caKey caCert leafKey
              (mkCertificate "metrics-server.kube-system.svc"
                 ["metrics-server.kube-system.svc.cluster.local.";
                  "metrics-server.kube-system.svc"]
                 [ExtKeyUsageServerAuth] "kubernetes" 42 11))
    as (bundle & Hret & _ & _ & _ & Hdom);
    [discriminate..|reflexivity|reflexivity|].
  exists bundle. split; [exact Hret|exact Hdom].
Defined.

End certificate_more.

(** * Further properties of [machinecontroller] *)
Module machinecontroller_more.
Import machinecontroller machinecontroller_vocabulary.

Section Package.

Context {AWSSpecFields JSONObject Taint NetworkConfig Remote : Type}.
Variable json_Unmarshal_AWSSpec : bytes -> result (@AWSSpec AWSSpecFields).
Variable json_Marshal_AWSSpec : @AWSSpec AWSSpecFields -> result bytes.
Variable json_Unmarshal_object : bytes -> result JSONObject.
Variable json_Marshal_object : JSONObject -> result bytes.
Variable json_Marshal_providerSpec :
  @ProviderSpec Taint NetworkConfig -> string -> result bytes.
Variable CreateOrUpdate :
  Remote -> @MachineDeployment Taint -> result Remote.
Variable KubernetesToYAML : list (@MachineDeployment Taint) -> result string.
Variable SchemeGroupVersion_String : string.

Local Abbreviation machineSpec :=
  (machinecontroller.machineSpec (Taint:=Taint) (NetworkConfig:=NetworkConfig)
     json_Unmarshal_AWSSpec json_Marshal_AWSSpec json_Unmarshal_object).

Local Abbreviation createMachineDeployment :=
  (machinecontroller.createMachineDeployment
     json_Unmarshal_AWSSpec json_Marshal_AWSSpec json_Unmarshal_object
     json_Marshal_object json_Marshal_providerSpec).

Local Abbreviation applyMachineDeployments :=
  (machinecontroller.applyMachineDeployments
     json_Unmarshal_AWSSpec json_Marshal_AWSSpec json_Unmarshal_object
     json_Marshal_object json_Marshal_providerSpec CreateOrUpdate).

Local Abbreviation CreateMachineDeployments :=
  (machinecontroller.CreateMachineDeployments
     json_Unmarshal_AWSSpec json_Marshal_AWSSpec json_Unmarshal_object
     json_Marshal_object json_Marshal_providerSpec CreateOrUpdate).

Local Abbreviation manifestObjects :=
  (machinecontroller.manifestObjects
     json_Unmarshal_AWSSpec json_Marshal_AWSSpec json_Unmarshal_object
     json_Marshal_object json_Marshal_providerSpec
     SchemeGroupVersion_String).

Local Abbreviation GenerateMachineDeploymentsManifest :=
  (machinecontroller.GenerateMachineDeploymentsManifest
     json_Unmarshal_AWSSpec json_Marshal_AWSSpec json_Unmarshal_object
     json_Marshal_object json_Marshal_providerSpec KubernetesToYAML
     SchemeGroupVersion_String).

(** ** The provider payload *)

(** X19.  A pool without a provider payload is refused before anything
    is parsed: [machineSpec] returns "could't find cloudProviderSpec" for
    every provider, and [createMachineDeployment] returns that error
    wrapped, also when the pool has no replica count. *)
Theorem missing_payload_refused cluster workerset provider :
  CloudProviderSpec_ (Config workerset) = None ->
  machineSpec cluster workerset provider =
    Err (errors_New "could't find cloudProviderSpec") /\
  createMachineDeployment cluster workerset =
    Err (errors_Wrap (errors_New "could't find cloudProviderSpec")
           "failed to generate machineSpec").
Proof.
  intros Hnil.
  unfold machinecontroller.createMachineDeployment,
    machinecontroller.machineSpec.
  by rewrite Hnil.
Qed.

(** X20.  For a provider other than AWS the payload is handed on as it
    came: [machineSpec] is the generic parse of the very bytes of the
    pool, nothing is tagged and the AWS codec is not used. *)
Theorem other_providers_untouched cluster workerset provider specRaw :
  AWS provider = None ->
  CloudProviderSpec_ (Config workerset) = Some specRaw ->
  machineSpec cluster workerset provider =
    wrapped (json_Unmarshal_object specRaw)
      "unable to parse the workerset spec".
Proof.
  intros Haws Hraw. unfold machinecontroller.machineSpec.
  by rewrite Hraw, Haws.
Qed.

(** X21.  On AWS each failing step of [machineSpec] is reported with its
    own message: a payload that does not parse as an AWS spec, an AWS spec
    that cannot be serialised again, and a serialised spec that does not
    parse as an object. *)
Theorem aws_payload_failures cluster workerset provider specRaw :
  AWS provider <> None ->
  CloudProviderSpec_ (Config workerset) = Some specRaw ->
  (forall e, json_Unmarshal_AWSSpec specRaw = Err e ->
     machineSpec cluster workerset provider =
     Err (errors_Wrap e "could not parse AWS Spec for worker machines")) /\
  (forall awsSpec,
     json_Unmarshal_AWSSpec specRaw = Ok awsSpec ->
     (forall e,
        json_Marshal_AWSSpec (taggedAWSSpec cluster awsSpec) = Err e ->
        machineSpec cluster workerset provider =
        Err (errors_Wrap e "could not marshal AWSSpec")) /\
     (forall specRaw' e,
        json_Marshal_AWSSpec (taggedAWSSpec cluster awsSpec) = Ok specRaw' ->
        json_Unmarshal_object specRaw' = Err e ->
        machineSpec cluster workerset provider =
        Err (errors_Wrap e "unable to parse the workerset spec"))).
Proof.
  intros Haws Hraw. unfold machinecontroller.machineSpec. rewrite Hraw.
  destruct (AWS provider); [|done]. split.
  - by intros e ->.
  - intros awsSpec ->. cbn. split.
    + by intros e ->.
    + intros specRaw' e -> Hparse. cbn. by rewrite Hparse.
Qed.

(** X22.  An AWS payload without a tag map gets one that holds the
    cluster tag and nothing else; and tagging is idempotent: a payload
    that went through [machineSpec] before is tagged to itself. *)
Theorem aws_tagging cluster (awsSpec : @AWSSpec AWSSpecFields) :
  (Tags awsSpec = None ->
   taggedAWSSpec (Taint:=Taint) (NetworkConfig:=NetworkConfig)
     cluster awsSpec =
   mkAWSSpec
     (Some {[ "kubernetes.io/cluster/" ++ Cluster_Name cluster := "shared" ]})
     (OtherFields awsSpec)) /\
  taggedAWSSpec cluster (taggedAWSSpec cluster awsSpec) =
    taggedAWSSpec cluster awsSpec.
Proof.
  unfold taggedAWSSpec. split.
  - by intros ->.
  - cbn. by rewrite insert_insert_eq.
Qed.

(** ** The descriptor *)

Lemma createMachineDeployment_fields cluster workerset md :
  createMachineDeployment cluster workerset = Ok md ->
  exists encoded replicas,
    prepared json_Unmarshal_AWSSpec json_Marshal_AWSSpec
      json_Unmarshal_object json_Marshal_object json_Marshal_providerSpec
      cluster workerset encoded /\
    Replicas workerset = Some replicas /\
    TypeMeta md = None /\
    MachineDeployment_ObjectMeta md =
      mkObjectMeta (Annotations (Config workerset)) ∅ NamespaceSystem
        (Name workerset) /\
    Spec_Replicas (Spec md) = int32 replicas /\
    Selector_MatchLabels (Spec md) = {[ "workerset" := Name workerset ]} /\
    Meta_Labels (Template_ObjectMeta (Template (Spec md))) =
      labels_Merge (Labels (Config workerset))
        {[ "workerset" := Name workerset ]} /\
    Meta_Labels (MachineSpec_ObjectMeta (Template_Spec (Template (Spec md))))
      = labels_Merge (Labels (Config workerset))
          {[ "workerset" := Name workerset ]} /\
    Versions_Kubelet (Template_Spec (Template (Spec md))) =
      Versions_Kubernetes cluster /\
    ProviderSpec_Value_Raw (Template_Spec (Template (Spec md))) = encoded /\
    MachineSpec_Taints (Template_Spec (Template (Spec md))) =
      Taints (Config workerset).
Proof.
  unfold machinecontroller.createMachineDeployment,
    machinecontroller_vocabulary.prepared.
  destruct (machinecontroller.machineSpec _ _ _ cluster workerset
              (CloudProvider cluster)) as [spec| |] eqn:Hspec; cbn;
    try discriminate.
  destruct (json_Marshal_object spec) as [raw| |] eqn:Hraw; cbn;
    try discriminate.
  destruct (json_Marshal_providerSpec _ _) as [encoded| |] eqn:Henc; cbn;
    try discriminate.
  destruct (Replicas workerset) as [r|]; cbn; try discriminate.
  destruct (Network (Config workerset)); intros [= <-];
    exists encoded, r; (split; [by exists spec, raw|]); repeat split.
Qed.

(** X23.  In every descriptor the selector is the single label
    [workerset] with the name of the pool, and the labels of the machine
    template and of the machine carry that label with that value, whatever
    the labels of the pool say under [workerset]; every other label of the
    pool is passed on.  So the selector always selects the machines of its
    own template. *)
Theorem selector_matches_template cluster workerset md :
  createMachineDeployment cluster workerset = Ok md ->
  let selector := Selector_MatchLabels (Spec md) in
  let template := Meta_Labels (Template_ObjectMeta (Template (Spec md))) in
  let machine :=
    Meta_Labels (MachineSpec_ObjectMeta (Template_Spec (Template (Spec md))))
  in
  selector = {[ "workerset" := Name workerset ]} /\
  machine = template /\
  selector ⊆ template /\
  (forall key, key <> "workerset" ->
     template !! key = Labels (Config workerset) !! key).
Proof.
  intros Hmd selector template machine. subst selector template machine.
  destruct (createMachineDeployment_fields _ _ _ Hmd)
    as (encoded & r & _ & _ & _ & _ & _ & -> & -> & -> & _).
  unfold labels_Merge. split; [done|]. split; [done|]. split.
  - apply map_union_subseteq_l.
  - intros key Hkey. rewrite lookup_union_r; [done|].
    by apply lookup_singleton_ne.
Qed.

(** X24.  A descriptor carries the name of its pool, the namespace
    [kube-system], the annotations and taints of the pool, the Kubernetes
    version of the cluster as kubelet version, and no type information; its
    replica count is the one of the pool whenever that fits 32 bits. *)
Theorem descriptor_identity cluster workerset md :
  createMachineDeployment cluster workerset = Ok md ->
  TypeMeta md = None /\
  Meta_Name (MachineDeployment_ObjectMeta md) = Name workerset /\
  Meta_Namespace (MachineDeployment_ObjectMeta md) = "kube-system" /\
  Meta_Annotations (MachineDeployment_ObjectMeta md) =
    Annotations (Config workerset) /\
  Versions_Kubelet (Template_Spec (Template (Spec md))) =
    Versions_Kubernetes cluster /\
  MachineSpec_Taints (Template_Spec (Template (Spec md))) =
    Taints (Config workerset) /\
  exists replicas,
    Replicas workerset = Some replicas /\
    (- 2 ^ 31 <= replicas < 2 ^ 31 -> Spec_Replicas (Spec md) = replicas).
Proof.
  intros Hmd.
  destruct (createMachineDeployment_fields _ _ _ Hmd)
    as (encoded & r & _ & Hrep & -> & -> & -> & _ & _ & _ & -> & _ & ->).
  do 6 (split; [reflexivity|]). exists r. split; [done|].
  intros Hrange. unfold int32.
  rewrite Z.mod_small by lia. lia.
Qed.

(** ** Applying the descriptors *)

(** X25.  Without a dynamic client [CreateMachineDeployments] returns its
    error before it looks at any pool; with a client and no pools it
    returns the cluster as it found it. *)
Theorem CreateMachineDeployments_edges cluster remote :
  CreateMachineDeployments cluster None =
    Err (errors_New "kubernetes dynamic client in not initialized") /\
  (DynamicWorkers cluster = [] ->
   CreateMachineDeployments cluster (Some remote) = Ok remote).
Proof.
  unfold machinecontroller.CreateMachineDeployments.
  split; [done|]. by intros ->.
Qed.

Lemma applyMachineDeployments_app cluster first : forall rest remote,
  applyMachineDeployments cluster (first ++ rest)%list remote =
  applyMachineDeployments cluster first remote
    ≫= applyMachineDeployments cluster rest.
Proof.
  induction first as [|w first IH]; intros rest remote; [done|].
  cbn [app machinecontroller.applyMachineDeployments].
  destruct (createMachineDeployment cluster w) as [md| |]; cbn;
    [|reflexivity..].
  destruct (CreateOrUpdate remote md) as [remote'| |]; cbn;
    [apply IH|reflexivity..].
Qed.

(** X26.  The pools are applied in order, each to the cluster as the
    pools before it left it, and the first failure ends the run: applying
    [first ++ rest] is applying [first] and then [rest]; a pool whose
    descriptor cannot be generated is not applied, and after a failed
    generation or a failed apply no later pool is touched. *)
Theorem apply_in_order cluster first rest remote :
  applyMachineDeployments cluster (first ++ rest)%list remote =
    applyMachineDeployments cluster first remote
      ≫= applyMachineDeployments cluster rest /\
  (forall workerset e,
     createMachineDeployment cluster workerset = Err e ->
     applyMachineDeployments cluster (workerset :: rest) remote =
     Err (errors_Wrap e "failed to generate MachineDeployment")) /\
  (forall workerset md e,
     createMachineDeployment cluster workerset = Ok md ->
     CreateOrUpdate remote md = Err e ->
     applyMachineDeployments cluster (workerset :: rest) remote =
     Err (errors_Wrap e "failed to ensure MachineDeployment")) /\
  (forall workerset md remote',
     createMachineDeployment cluster workerset = Ok md ->
     CreateOrUpdate remote md = Ok remote' ->
     applyMachineDeployments cluster (workerset :: rest) remote =
     applyMachineDeployments cluster rest remote').
Proof.
  split; [apply applyMachineDeployments_app|].
  cbn [machinecontroller.applyMachineDeployments].
  split; [by intros w e ->|].
  split; [intros w md e -> Hup; cbn; by rewrite Hup|].
  intros w md remote' -> Hup. cbn. by rewrite Hup.
Qed.

(** ** The manifest *)

Lemma manifestObjects_all cluster workersets : forall mds objs,
  Forall2 (fun w md => createMachineDeployment cluster w = Ok md)
    workersets mds ->
  manifestObjects cluster workersets objs =
  Ok (objs ++
      map (set_TypeMeta
             (Some (SchemeGroupVersion_String, "MachineDeployment"))) mds)%list.
Proof.
  induction workersets as [|w ws IH]; intros mds objs Hall;
    inversion Hall as [|? md ? mds' Hw Hws]; subst; cbn.
  - by rewrite app_nil_r.
  - rewrite Hw. cbn. rewrite (IH mds') by done. by rewrite <- app_assoc.
Qed.

Lemma manifestObjects_first_failure cluster first : forall mds objs w rest e,
  Forall2 (fun w md => createMachineDeployment cluster w = Ok md)
    first mds ->
  createMachineDeployment cluster w = Err e ->
  manifestObjects cluster (first ++ w :: rest)%list objs =
  Err (errors_Wrap e "failed to generate MachineDeployment").
Proof.
  induction first as [|w0 first IH]; intros mds objs w rest e Hall Hw;
    inversion Hall as [|? md ? mds' Hw0 Hfirst]; subst; cbn.
  - by rewrite Hw.
  - rewrite Hw0. cbn. by apply (IH mds').
Qed.

(** X27.  The manifest of a cluster without pools is the empty text, and
    the YAML printer is not called.  When every pool yields a descriptor,
    the manifest is the YAML of these descriptors in the order of the
    pools, each with kind [MachineDeployment] and the API version of the
    scheme.  When a pool fails, the manifest is the wrapped error of the
    first pool that fails. *)
Theorem manifest_of_pools cluster :
  (DynamicWorkers cluster = [] ->
   GenerateMachineDeploymentsManifest cluster = Ok "") /\
  (forall mds,
     DynamicWorkers cluster <> [] ->
     Forall2 (fun w md => createMachineDeployment cluster w = Ok md)
       (DynamicWorkers cluster) mds ->
     GenerateMachineDeploymentsManifest cluster =
     KubernetesToYAML
       (map (set_TypeMeta
               (Some (SchemeGroupVersion_String, "MachineDeployment")))
          mds)) /\
  (forall first mds w rest e,
     DynamicWorkers cluster = (first ++ w :: rest)%list ->
     Forall2 (fun w md => createMachineDeployment cluster w = Ok md)
       first mds ->
     createMachineDeployment cluster w = Err e ->
     GenerateMachineDeploymentsManifest cluster =
     Err (errors_Wrap e "failed to generate MachineDeployment")).
Proof.
  unfold machinecontroller.GenerateMachineDeploymentsManifest.
  split; [by intros ->|]. split.
  - intros mds Hne Hall.
    destruct (DynamicWorkers cluster) as [|w ws] eqn:Hws; [done|].
    by rewrite (manifestObjects_all _ _ _ _ Hall).
  - intros first mds w rest e Hws Hall Hw.
    destruct (DynamicWorkers cluster) as [|w0 ws0] eqn:Hws0.
    + by destruct first.
    + rewrite Hws.
      by rewrite (manifestObjects_first_failure _ _ _ _ _ _ _ Hall Hw).
Qed.

End Package.

Import machinecontroller_samples machinecontroller_more_samples.

Lemma missing_payload_refused_witness :
  generate (prod []) noPayloadPool =
  Err (errors_Wrap (errors_New "could't find cloudProviderSpec")
         "failed to generate machineSpec").
Proof.
  apply (missing_payload_refused unmarshalAWSSpec marshalAWSSpec
           unmarshalObject marshalObject marshalProviderSpec
           (prod []) noPayloadPool aws).
  reflexivity.
Defined.

Lemma other_providers_untouched_witness :
  machineSpec (Taint:=string) (NetworkConfig:=unit)
    unmarshalAWSSpec marshalAWSSpec unmarshalObject
    (onHetzner []) (namedPool "workers" "size=cx21" (Some 2)) hetzner =
  wrapped (unmarshalObject (list_byte_of_string "size=cx21"))
    "unable to parse the workerset spec".
Proof.
  apply (other_providers_untouched unmarshalAWSSpec marshalAWSSpec
           unmarshalObject); reflexivity.
Defined.

Lemma aws_payload_failures_witness :
  payloadOf (prod []) (pool "no tags here" (Some 1) None) aws =
  Err (errors_Wrap (library_error "invalid character in payload")
         "could not parse AWS Spec for worker machines").
Proof.
  destruct (aws_payload_failures unmarshalAWSSpec marshalAWSSpec
              unmarshalObject (prod []) (pool "no tags here" (Some 1) None)
              aws (list_byte_of_string "no tags here")) as [Hparse _];
    [discriminate|reflexivity|].
  apply Hparse. vm_compute. reflexivity.
Defined.

Lemma aws_tagging_witness :
  taggedAWSSpec (Taint:=string) (NetworkConfig:=unit) (prod [])
    (mkAWSSpec None tt) =
  mkAWSSpec (Some {[ "kubernetes.io/cluster/prod" := "shared" ]}) tt.
Proof.
  exact (proj1 (aws_tagging (Taint:=string) (NetworkConfig:=unit) (prod [])
                  (mkAWSSpec None tt)) eq_refl).
Defined.

Lemma workers_descriptor :
  exists md,
    createMachineDeployment unmarshalAWSSpec marshalAWSSpec unmarshalObject
      marshalObject marshalProviderSpec
      (onHetzner []) (namedPool "workers" "" (Some 2)) = Ok md.
Proof.
  destruct (machinecontroller_facts.createMachineDeployment_returns
              unmarshalAWSSpec marshalAWSSpec unmarshalObject marshalObject
              marshalProviderSpec (onHetzner [])
              (namedPool "workers" "" (Some 2))
              (list_byte_of_string "hetzner:") 2) as (md & Hmd & _).
  - exists ∅, []. split; [|split]; reflexivity.
  - reflexivity.
  - by exists md.
Defined.

Lemma selector_matches_template_witness :
  exists md,
    createMachineDeployment unmarshalAWSSpec marshalAWSSpec unmarshalObject
      marshalObject marshalProviderSpec
      (onHetzner []) (namedPool "workers" "" (Some 2)) = Ok md /\
    Meta_Labels (Template_ObjectMeta (Template (Spec md))) !! "tier" =
      Some "batch".
Proof.
  destruct workers_descriptor as [md Hmd]. exists md. split; [exact Hmd|].
  destruct (selector_matches_template unmarshalAWSSpec marshalAWSSpec
              unmarshalObject marshalObject marshalProviderSpec
              (onHetzner []) (namedPool "workers" "" (Some 2)) md Hmd)
    as (_ & _ & _ & Hother).
  rewrite Hother by discriminate. vm_compute. reflexivity.
Defined.

Lemma descriptor_identity_witness :
  exists md,
    createMachineDeployment unmarshalAWSSpec marshalAWSSpec unmarshalObject
      marshalObject marshalProviderSpec
      (onHetzner []) (namedPool "workers" "" (Some 2)) = Ok md /\
    Meta_Name (MachineDeployment_ObjectMeta md) = "workers".
Proof.
  destruct workers_descriptor as [md Hmd]. exists md. split; [exact Hmd|].
  apply (descriptor_identity unmarshalAWSSpec marshalAWSSpec
           unmarshalObject marshalObject marshalProviderSpec
           (onHetzner []) (namedPool "workers" "" (Some 2)) md Hmd).
Defined.

Lemma CreateMachineDeployments_edges_witness :
  CreateMachineDeployments unmarshalAWSSpec marshalAWSSpec unmarshalObject
    marshalObject marshalProviderSpec createOrUpdate (onHetzner [])
    (Some []) = Ok [].
Proof.
  apply (CreateMachineDeployments_edges unmarshalAWSSpec marshalAWSSpec
           unmarshalObject marshalObject marshalProviderSpec createOrUpdate
           (onHetzner []) []).
  reflexivity.
Defined.

Lemma apply_in_order_witness :
  applyAll (onHetzner []) [noPayloadPool; namedPool "workers" "" (Some 2)] []
  = Err (errors_Wrap
           (errors_Wrap (errors_New "could't find cloudProviderSpec")
              "failed to generate machineSpec")
           "failed to generate MachineDeployment").
Proof.
  apply (apply_in_order unmarshalAWSSpec marshalAWSSpec unmarshalObject
           marshalObject marshalProviderSpec createOrUpdate (onHetzner [])
           [] [namedPool "workers" "" (Some 2)] []).
  reflexivity.
Defined.

Lemma manifest_of_pools_witness :
  manifest (onHetzner [namedPool "workers" "" (Some 2)]) =
  Ok "MachineDeployment cluster.k8s.io/v1alpha1 workers".
Proof.
  destruct (machinecontroller_facts.createMachineDeployment_returns
              unmarshalAWSSpec marshalAWSSpec unmarshalObject marshalObject
              marshalProviderSpec
              (onHetzner [namedPool "workers" "" (Some 2)])
              (namedPool "workers" "" (Some 2))
              (list_byte_of_string "hetzner:") 2) as (md & Hmd & _).
  { exists ∅, []. split; [|split]; reflexivity. }
  { reflexivity. }
  destruct (manifest_of_pools unmarshalAWSSpec marshalAWSSpec
              unmarshalObject marshalObject marshalProviderSpec toYAML
              groupVersion (onHetzner [namedPool "workers" "" (Some 2)]))
    as (_ & Hall & _).
  unfold manifest. rewrite (Hall [md]).
  - unfold toYAML. cbn [map strings_Join].
    unfold printObject. cbn [TypeMeta set_TypeMeta MachineDeployment_ObjectMeta].
    assert (Hname : Meta_Name (MachineDeployment_ObjectMeta md) = "workers").
    { unfold machinecontroller.createMachineDeployment in Hmd.
      vm_compute in Hmd. by injection Hmd as <-. }
    by rewrite Hname.
  - discriminate.
  - by repeat constructor.
Defined.

End machinecontroller_more.
